(** * Token lifecycle and proxy handlers of the GoHighLevel OAuth gateway

    A shallow embedding of [app.py]: the cookie session is a finite map, the
    wall clock and the remote servers are an explicit environment, and every
    handler is a computation in a state-and-exception monad that records the
    HTTP requests it sends. *)

From Stdlib Require Import ZArith Lia.
From stdpp Require Import base option list strings gmap.

Local Open Scope string_scope.
Local Open Scope Z_scope.
Set Warnings "-register-all".

(** ** Python values *)

(** The JSON-shaped values that flow through the handlers.  JSON numbers are
    integers here; floating point numbers are outside the model. *)
Inductive pyval : Type :=
| PNone
| PBool (b : bool)
| PInt (z : Z)
| PStr (s : string)
| PList (l : list pyval)
| PDict (d : list (string * pyval)).

(** The error taxonomy the specification names.  [app.py] declares no
    exception class of its own, so nothing below ever builds one of these. *)
Inductive AuthError : Type :=
| NoSession
| MissingRefreshToken
| UpstreamRejected (status : Z) (body : string)
| MalformedTokenResponse
| NetworkError
| MissingTenantIdentifier (which : string)
| UnparseableUpstreamResponse (raw : string).

(** What a Python statement of [app.py] can raise. *)
Inductive exn : Type :=
| KeyError (k : string)
| TypeError
| ValueError
| AttributeError
| HTTPError (status : Z)
| JSONDecodeError
| ConnectionError
| BadRequest
| Typed (e : AuthError).

Inductive result (A : Type) : Type :=
| Ok (a : A)
| Raise (e : exn).
Arguments Ok {A} a.
Arguments Raise {A} e.

(** Truth value of an object, as [if x] and [not x] test it. *)
Definition truthy (v : pyval) : bool :=
  match v with
  | PNone => false
  | PBool b => b
  | PInt z => negb (z =? 0)
  | PStr s => negb (String.eqb s "")
  | PList l => match l with [] => false | _ => true end
  | PDict d => match d with [] => false | _ => true end
  end.

(** Dictionaries keep insertion order; a key occurs once. *)
Fixpoint dict_lookup (k : string) (d : list (string * pyval)) : option pyval :=
  match d with
  | [] => None
  | (k', v) :: d' => if String.eqb k k' then Some v else dict_lookup k d'
  end.

Fixpoint dict_store (k : string) (v : pyval) (d : list (string * pyval))
  : list (string * pyval) :=
  match d with
  | [] => [(k, v)]
  | (k', v') :: d' =>
      if String.eqb k k' then (k, v) :: d' else (k', v') :: dict_store k v d'
  end.

(** [d[k]] *)
Definition py_getitem (d : pyval) (k : string) : result pyval :=
  match d with
  | PDict l => match dict_lookup k l with
               | Some v => Ok v
               | None => Raise (KeyError k)
               end
  | _ => Raise TypeError
  end.

(** [d.get(k, dflt)] *)
Definition py_get (d : pyval) (k : string) (dflt : pyval) : result pyval :=
  match d with
  | PDict l => Ok (default dflt (dict_lookup k l))
  | _ => Raise AttributeError
  end.

(** [d[k] = v] on a value that should be a dictionary. *)
Definition py_setitem (d : pyval) (k : string) (v : pyval) : result pyval :=
  match d with
  | PDict l => Ok (PDict (dict_store k v l))
  | _ => Raise TypeError
  end.

(** [int(x)].  Parsing of a [str] argument is left to [int_of_str]. *)
Definition py_int (int_of_str : string -> option Z) (v : pyval) : result Z :=
  match v with
  | PInt z => Ok z
  | PBool b => Ok (if b then 1 else 0)
  | PStr s => match int_of_str s with
              | Some z => Ok z
              | None => Raise ValueError
              end
  | PNone | PList _ | PDict _ => Raise TypeError
  end.

(** [n >= v] and [v - n] for an integer [n]; only numbers are ordered with,
    or subtracted from, an [int]. *)
Definition py_int_ge (n : Z) (v : pyval) : result bool :=
  match v with
  | PInt z => Ok (z <=? n)
  | PBool b => Ok ((if b then 1 else 0) <=? n)
  | _ => Raise TypeError
  end.

Definition py_sub_int (v : pyval) (n : Z) : result Z :=
  match v with
  | PInt z => Ok (z - n)
  | PBool b => Ok ((if b then 1 else 0) - n)
  | _ => Raise TypeError
  end.

(** What [for x in v] visits.  A [str] yields its characters, a [dict] its
    keys. *)
Fixpoint chars (s : string) : list pyval :=
  match s with
  | EmptyString => []
  | String c s' => PStr (String c EmptyString) :: chars s'
  end.

Definition py_iter (v : pyval) : result (list pyval) :=
  match v with
  | PList l => Ok l
  | PDict d => Ok (map (fun kv => PStr (fst kv)) d)
  | PStr s => Ok (chars s)
  | PNone | PBool _ | PInt _ => Raise TypeError
  end.

(** ** The outside world *)

Inductive Url : Type :=
| TOKEN_URL
| API (path : string)
| API_item (path : string) (id : pyval).

(** A header is a literal or the f-string [Bearer {token}]. *)
Inductive header : Type :=
| HLit (s : string)
| HBearer (token : pyval).

Record Request : Type := {
  req_method : string;
  req_url : Url;
  req_headers : list (string * header);
  req_params : list (string * pyval);
  req_data : list (string * pyval);
  req_json : option pyval
}.

(** [json] is the parse of [text], [None] when it is not JSON. *)
Record Response : Type := {
  status_code : Z;
  text : string;
  json : option pyval
}.

(** The clock gives the successive values of [int(time.time())]; the network
    answers the [n]-th request sent, or fails to ([None]). *)
Record Env : Type := {
  clock : nat -> Z;
  network : nat -> Request -> option Response;
  int_of_str : string -> option Z
}.

Record Config : Type := {
  CLIENT_ID : string;
  CLIENT_SECRET : string;
  REDIRECT_URI : string
}.

(** The Flask session, the number of clock readings taken and the requests
    sent so far, oldest first. *)
Record State : Type := {
  session : gmap string pyval;
  ticks : nat;
  sent : list Request
}.

(** ** The monad of handlers *)

(** A statement runs in a state and ends with a value or an exception; in
    both cases the state is the one the statements run so far have left, so
    what was written to the session before a [raise] stays written. *)
Definition M (A : Type) : Type := State -> result A * State.

#[global] Instance M_ret : MRet M := fun A a st => (Ok a, st).

#[global] Instance M_bind : MBind M := fun A B f m st =>
  match m st with
  | (Ok a, st') => f a st'
  | (Raise e, st') => (Raise e, st')
  end.

Definition throw {A} (e : exn) : M A := fun st => (Raise e, st).

Definition lift {A} (r : result A) : M A := fun st => (r, st).

Definition session_get (k : string) : M pyval :=
  fun st => (Ok (default PNone (session st !! k)), st).

Definition session_get_or (k : string) (dflt : pyval) : M pyval :=
  fun st => (Ok (default dflt (session st !! k)), st).

Definition session_getitem (k : string) : M pyval :=
  fun st => match session st !! k with
            | Some v => (Ok v, st)
            | None => (Raise (KeyError k), st)
            end.

Definition session_has (k : string) : M bool :=
  fun st => (Ok (bool_decide (is_Some (session st !! k))), st).

Definition session_set (k : string) (v : pyval) : M unit :=
  fun st => (Ok tt, {| session := <[k := v]> (session st);
                       ticks := ticks st; sent := sent st |}).

(** ** Flask requests and replies *)

(** An inbound request: the query string in order, the headers, and the parse
    of the body ([None] when the body is not JSON). *)
Record Inbound : Type := {
  args : list (string * string);
  in_headers : list (string * string);
  body : option pyval
}.

Inductive Body : Type :=
| Json (v : pyval)
| Text (s : string).

Record Reply : Type := {
  r_body : Body;
  r_status : Z
}.

Definition jsonify (v : pyval) : Reply := {| r_body := Json v; r_status := 200 |}.

Definition with_status (r : Reply) (code : Z) : Reply :=
  {| r_body := r_body r; r_status := code |}.

Fixpoint first_value (k : string) (l : list (string * string)) : option string :=
  match l with
  | [] => None
  | (k', v) :: l' => if String.eqb k k' then Some v else first_value k l'
  end.

(** [request.args.get(k)] *)
Definition args_get (rq : Inbound) (k : string) : pyval :=
  match first_value k (args rq) with
  | Some v => PStr v
  | None => PNone
  end.

(** [request.args.to_dict(flat=True)]: the first value of every key. *)
Fixpoint to_dict (l : list (string * string)) : list (string * pyval) :=
  match l with
  | [] => []
  | (k, v) :: l' =>
      (k, PStr v) :: filter (fun kv => negb (String.eqb (fst kv) k)) (to_dict l')
  end.

Section App.

Variable cfg : Config.
Variable env : Env.

(** [int(time.time())] *)
Definition time_now : M Z :=
  fun st => (Ok (clock env (ticks st)),
             {| session := session st; ticks := S (ticks st); sent := sent st |}).

(** Sending a request records it, whatever comes back. *)
Definition send (r : Request) : M Response :=
  fun st =>
    let st' := {| session := session st; ticks := ticks st;
                  sent := sent st ++ [r] |} in
    match network env (length (sent st)) r with
    | Some resp => (Ok resp, st')
    | None => (Raise ConnectionError, st')
    end.

Definition requests_post_form (u : Url) (data : list (string * pyval)) : M Response :=
  send {| req_method := "POST"; req_url := u; req_headers := [];
          req_params := []; req_data := data; req_json := None |}.

Definition requests_post_json (u : Url) (headers : list (string * header))
    (j : pyval) : M Response :=
  send {| req_method := "POST"; req_url := u; req_headers := headers;
          req_params := []; req_data := []; req_json := Some j |}.

Definition requests_get (u : Url) (headers : list (string * header))
    (params : list (string * pyval)) : M Response :=
  send {| req_method := "GET"; req_url := u; req_headers := headers;
          req_params := params; req_data := []; req_json := None |}.

(** [resp.raise_for_status()] raises on 4xx and 5xx. *)
Definition raise_for_status (resp : Response) : M unit :=
  if (400 <=? status_code resp) && (status_code resp <? 600)
  then throw (HTTPError (status_code resp))
  else mret tt.

(** [resp.json()] *)
Definition resp_json (resp : Response) : M pyval :=
  match json resp with
  | Some v => mret v
  | None => throw JSONDecodeError
  end.

(** *** The token store *)

Definition store_tokens (tokens location_id : pyval) : M unit :=
  access ← lift (py_getitem tokens "access_token");
  session_set "access_token" access;;
  refresh ← lift (py_get tokens "refresh_token" PNone);
  session_set "refresh_token" refresh;;
  expires_in ← lift (py_get tokens "expires_in" (PInt 3600));
  now ← time_now;
  secs ← lift (py_int (int_of_str env) expires_in);
  session_set "token_expires_at" (PInt (now + secs - 30));;
  loc ← (if truthy location_id then mret location_id
         else lift (py_getitem tokens "locationId"));
  session_set "location_id" loc;;
  company ← lift (py_getitem tokens "companyId");
  session_set "company_id" company.

Definition token_expired : M bool :=
  present ← session_has "token_expires_at";
  if negb present then mret true
  else
    now ← time_now;
    at_ ← session_getitem "token_expires_at";
    lift (py_int_ge now at_).

Definition refresh_access_token : M unit :=
  refresh ← session_get "refresh_token";
  resp ← requests_post_form TOKEN_URL
           [("grant_type", PStr "refresh_token");
            ("refresh_token", refresh);
            ("client_id", PStr (CLIENT_ID cfg));
            ("client_secret", PStr (CLIENT_SECRET cfg))];
  raise_for_status resp;;
  tokens ← resp_json resp;
  loc ← session_get "location_id";
  store_tokens tokens loc.

Definition get_valid_access_token : M pyval :=
  expired ← token_expired;
  (if expired : bool then refresh_access_token else mret tt);;
  session_get "access_token".

(** *** The callback endpoint *)

Definition build_response : M Reply :=
  access ← session_get "access_token";
  refresh ← session_get "refresh_token";
  at_ ← session_get_or "token_expires_at" (PInt 0);
  now ← time_now;
  remaining ← lift (py_sub_int at_ now);
  loc ← session_get "location_id";
  company ← session_get "company_id";
  mret (jsonify (PDict [("access_token", access);
                        ("refresh_token", refresh);
                        ("expires_in", PInt (Z.max remaining 0));
                        ("token_type", PStr "bearer");
                        ("location_id", loc);
                        ("company_id", company)])).

Definition callback (rq : Inbound) : M Reply :=
  let error := args_get rq "error" in
  if truthy error then
    mret (M := M)
      {| r_body := Text ("Error during authorization: " +:+
                         match error with PStr s => s | _ => "" end);
         r_status := 400 |}
  else
    let code := args_get rq "code" in
    let location_id := args_get rq "locationId" in
    access ← session_get "access_token";
    if negb (truthy access) && negb (truthy code) then
      mret (M := M)
        {| r_body := Text "No code provided and no valid session exists.";
           r_status := 400 |}
    else if negb (truthy access) && truthy code then
      token_resp ← requests_post_form TOKEN_URL
                     [("grant_type", PStr "authorization_code");
                      ("client_id", PStr (CLIENT_ID cfg));
                      ("client_secret", PStr (CLIENT_SECRET cfg));
                      ("code", code);
                      ("redirect_uri", PStr (REDIRECT_URI cfg))];
      raise_for_status token_resp;;
      tokens ← resp_json token_resp;
      store_tokens tokens location_id;;
      build_response
    else
      expired ← token_expired;
      if expired : bool then refresh_access_token;; build_response
      else build_response.

(** *** Proxy handlers *)

Definition no_token_reply : Reply :=
  with_status (jsonify (PDict [("error", PStr "No valid access token in session.")])) 401.

Definition error_reply (msg : string) (code : Z) : Reply :=
  with_status (jsonify (PDict [("error", PStr msg)])) code.

(** The two error envelopes every relaying handler builds. *)
Definition upstream_error (label : string) (resp : Response) : Reply :=
  with_status (jsonify (PDict [("error", PStr label);
                               ("detail", PStr (text resp));
                               ("status_code", PInt (status_code resp))]))
              (status_code resp).

Definition parse_error (label : string) (resp : Response) : Reply :=
  with_status (jsonify (PDict [("error", PStr label);
                               ("raw_response", PStr (text resp))])) 500.

(** The reply of the handlers that relay one upstream answer. *)
Definition relay (label parse_label : string) (resp : Response) : Reply :=
  if negb (status_code resp =? 200) then upstream_error label resp
  else
    match json resp with
    | Some data => jsonify data
    | None => parse_error parse_label resp
    end.

Definition search_locations (rq : Inbound) : M Reply :=
  access_token ← get_valid_access_token;
  if negb (truthy access_token) then mret no_token_reply
  else
    let params := to_dict (args rq) in
    let headers := [("Authorization", HBearer access_token);
                    ("Version", HLit "2021-07-28")] in
    resp ← requests_get (API "/locations/search") headers params;
    mret match json resp with
         | Some v => with_status (jsonify v) (status_code resp)
         | None => {| r_body := Text (text resp); r_status := status_code resp |}
         end.

Definition has_key (k : string) (d : list (string * pyval)) : bool :=
  bool_decide (is_Some (dict_lookup k d)).

(** The [if "locationId" not in params] block shared by the GET handlers;
    [inl] is the early return. *)
Definition location_from_session (msg : string) (params : list (string * pyval))
  : M (Reply + list (string * pyval)) :=
  if negb (has_key "locationId" params) then
    location_id ← session_get "location_id";
    if negb (truthy location_id) then mret (inl (error_reply msg 400))
    else mret (inr (dict_store "locationId" location_id params))
  else mret (inr params).

Definition get_campaigns (rq : Inbound) : M Reply :=
  access_token ← get_valid_access_token;
  if negb (truthy access_token) then mret no_token_reply
  else
    located ← location_from_session "No locationId found in session or request."
                (to_dict (args rq));
    match located with
    | inl early => mret early
    | inr params =>
        let headers := [("Authorization", HBearer access_token);
                        ("Version", HLit "2021-07-28")] in
        resp ← requests_get (API "/campaigns") headers params;
        mret (relay "Error fetching campaigns"
                    "Could not parse campaigns response" resp)
    end.

(** [request.get_json(force=True)]: a body that is not JSON is a 400. *)
Definition get_json (rq : Inbound) : M pyval :=
  match body rq with
  | Some v => mret v
  | None => throw BadRequest
  end.

(** The handler's [print(headers, body)] writes to the console only and is
    left out. *)
Definition search_contacts (rq : Inbound) : M Reply :=
  access_token ← get_valid_access_token;
  if negb (truthy access_token) then mret no_token_reply
  else
    parsed ← get_json rq;
    let body0 := if truthy parsed then parsed else PDict [] in
    given ← lift (py_get body0 "locationId" PNone);
    located ←
      (if negb (truthy given) then
         location_id ← session_get "location_id";
         if negb (truthy location_id) then
           mret (inl (error_reply "No locationId found in request or session." 400))
         else
           updated ← lift (py_setitem body0 "locationId" location_id);
           mret (inr updated)
       else mret (inr body0));
    match located with
    | inl early => mret early
    | inr body1 =>
        let headers := [("Authorization", HBearer access_token);
                        ("Version", HLit "2021-07-28");
                        ("Content-Type", HLit "application/json")] in
        resp ← requests_post_json (API "/contacts/search") headers body1;
        mret (relay "Error searching contacts"
                    "Could not parse contacts response" resp)
    end.

(** The inline objects that stand for a failed detail call. *)
Definition parse_failure (conversation_id : pyval) (resp : Response) : pyval :=
  PDict [("id", conversation_id);
         ("error", PStr "Could not parse detail");
         ("raw_response", PStr (text resp))].

Definition fetch_failure (conversation_id : pyval) (resp : Response) : pyval :=
  PDict [("id", conversation_id);
         ("error", PStr "Error fetching conversation");
         ("status_code", PInt (status_code resp));
         ("raw_response", PStr (text resp))].

(** The [for conv in conversations] loop, [acc] being
    [detailed_conversations]. *)
Fixpoint enrich (headers : list (string * header)) (conversations acc : list pyval)
  : M (list pyval) :=
  match conversations with
  | [] => mret acc
  | conv :: rest =>
      conversation_id ← lift (py_get conv "id" PNone);
      if negb (truthy conversation_id) then enrich headers rest acc
      else
        detail_resp ← requests_get (API_item "/conversations/" conversation_id)
                        headers [];
        if status_code detail_resp =? 200 then
          match json detail_resp with
          | Some detail => enrich headers rest (acc ++ [detail])
          | None =>
              enrich headers rest (acc ++ [parse_failure conversation_id detail_resp])
          end
        else enrich headers rest (acc ++ [fetch_failure conversation_id detail_resp])
  end.

Definition get_conversations_with_details (rq : Inbound) : M Reply :=
  access_token ← get_valid_access_token;
  if negb (truthy access_token) then mret no_token_reply
  else
    let headers := [("Authorization", HBearer access_token);
                    ("Version", HLit "2021-04-15")] in
    located ← location_from_session "No locationId found in session or request."
                (to_dict (args rq));
    match located with
    | inl early => mret early
    | inr params =>
        search_resp ← requests_get (API "/conversations/search") headers params;
        if negb (status_code search_resp =? 200) then
          mret (upstream_error "Error searching conversations" search_resp)
        else
          match json search_resp with
          | None =>
              mret (parse_error "Could not parse conversations search response"
                                search_resp)
          | Some search_data =>
              conversations ← lift (py_get search_data "conversations" (PList []));
              items ← lift (py_iter conversations);
              detailed ← enrich headers items [];
              mret (jsonify (PDict [("conversations_summary", conversations);
                                    ("conversations_detailed", PList detailed)]))
          end
    end.


(** *** The remaining proxy handlers *)

(** The [if key not in params] blocks of [get_opportunities] and [get_users]:
    the key tested, the key stored under and the session key read differ from
    handler to handler; [inl] is the early return. *)
Definition param_from_session (tested stored_as session_key msg : string)
    (params : list (string * pyval)) : M (Reply + list (string * pyval)) :=
  if negb (has_key tested params) then
    value ← session_get session_key;
    if negb (truthy value) then mret (inl (error_reply msg 400))
    else mret (inr (dict_store stored_as value params))
  else mret (inr params).

Definition get_opportunities (rq : Inbound) : M Reply :=
  access_token ← get_valid_access_token;
  if negb (truthy access_token) then mret no_token_reply
  else
    located ← param_from_session "location_id" "location_id" "location_id"
                "No location_id found in session or request."
                (to_dict (args rq));
    match located with
    | inl early => mret early
    | inr params =>
        let headers := [("Authorization", HBearer access_token);
                        ("Version", HLit "2021-07-28")] in
        resp ← requests_get (API "/opportunities/search") headers params;
        mret (relay "Error fetching opportunities"
                    "Could not parse opportunities response" resp)
    end.

Definition get_pipelines (rq : Inbound) : M Reply :=
  access_token ← get_valid_access_token;
  if negb (truthy access_token) then mret no_token_reply
  else
    located ← location_from_session "No locationId found in session or request."
                (to_dict (args rq));
    match located with
    | inl early => mret early
    | inr params =>
        let headers := [("Authorization", HBearer access_token);
                        ("Version", HLit "2021-07-28")] in
        resp ← requests_get (API "/opportunities/pipelines") headers params;
        mret (relay "Error fetching pipelines"
                    "Could not parse pipelines response" resp)
    end.

Definition get_users (rq : Inbound) : M Reply :=
  access_token ← get_valid_access_token;
  if negb (truthy access_token) then mret no_token_reply
  else
    with_company ← param_from_session "companyId" "companyId" "company_id"
                     "No companyId found in session or request."
                     (to_dict (args rq));
    match with_company with
    | inl early => mret early
    | inr params0 =>
        located ← param_from_session "location_id" "locationId" "location_id"
                    "No location_id found in session or request." params0;
        match located with
        | inl early => mret early
        | inr params =>
            let headers := [("Authorization", HBearer access_token);
                            ("Version", HLit "2021-07-28")] in
            resp ← requests_get (API "/users/search") headers params;
            mret (relay "Error fetching users"
                        "Could not parse users response" resp)
        end
    end.

(** [not v] and [v[0]] read together: [Empty] when [not v] holds, [Head x]
    when [v[0]] is [x], [NoHead e] when [v] is non-empty and [v[0]] raises
    [e] (for a dictionary [KeyError(0)], written with the key as text). *)
Inductive head : Type :=
| Empty
| Head (x : pyval)
| NoHead (e : exn).

Definition py_head (v : pyval) : head :=
  if negb (truthy v) then Empty
  else match v with
       | PList (x :: _) => Head x
       | PStr (String c _) => Head (PStr (String c EmptyString))
       | PDict _ => NoHead (KeyError "0")
       | _ => NoHead TypeError
       end.

(** The keys [search_location_and_get_campaigns] passes on to the search. *)
Definition search_keys : list string :=
  ["companyId"; "email"; "limit"; "order"; "skip"].

Definition search_location_and_get_campaigns (rq : Inbound) : M Reply :=
  access_token ← get_valid_access_token;
  if negb (truthy access_token) then mret no_token_reply
  else
    let search_params :=
      List.filter (fun kv => existsb (String.eqb (fst kv)) search_keys)
                  (to_dict (args rq)) in
    let campaign_status := args_get rq "status" in
    let headers := [("Authorization", HBearer access_token);
                    ("Version", HLit "2021-07-28")] in
    search_resp ← requests_get (API "/locations/search") headers search_params;
    if negb (status_code search_resp =? 200) then
      mret (with_status
              (jsonify (PDict [("error", PStr "Error searching locations");
                               ("detail", PStr (text search_resp))]))
              (status_code search_resp))
    else
      search_json ← resp_json search_resp;
      locations ← lift (py_get search_json "locations" (PList []));
      match py_head locations with
      | Empty =>
          mret (error_reply "No locations found matching the search criteria." 404)
      | NoHead e => throw e
      | Head location =>
          location_id ← lift (py_getitem location "id");
          let campaign_params :=
            if truthy campaign_status
            then [("locationId", PStr "Vhl9bqjezncp1pfb1gu4");
                  ("status", campaign_status)]
            else [("locationId", PStr "Vhl9bqjezncp1pfb1gu4")] in
          campaigns_resp ← requests_get (API "/campaigns") headers campaign_params;
          if negb (status_code campaigns_resp =? 200) then
            mret (upstream_error "Error fetching campaigns" campaigns_resp)
          else
            match json campaigns_resp with
            | None => mret (parse_error "Error parsing campaigns response"
                                        campaigns_resp)
            | Some campaigns_json =>
                campaigns ← lift (py_get campaigns_json "campaigns" (PList []));
                mret (jsonify (PDict [("searched_location", location);
                                      ("campaigns", campaigns);
                                      ("raw_campaigns_response", campaigns_json)]))
            end
      end.

(** *** The profile page *)

Definition safe_get_json (resp : Response) : pyval :=
  match json resp with
  | Some v => v
  | None => PDict [("error", PStr ("Non-JSON response: " +:+ text resp));
                   ("status", PInt (status_code resp))]
  end.

(** A view answers with a reply of its own or sends the browser to another
    endpoint. *)
Inductive View : Type :=
| Page (r : Reply)
| RedirectTo (endpoint : string).

Definition profile : M View :=
  access_token ← get_valid_access_token;
  location_id ← session_get "location_id";
  if negb (truthy access_token) || negb (truthy location_id) then
    mret (RedirectTo "index")
  else
    let headers := [("Authorization", HBearer access_token)] in
    loc_resp ← requests_get (API_item "/locations/" location_id) headers [];
    let locs := safe_get_json loc_resp in
    camps_resp ← requests_get (API "/campaigns") headers
                   [("locationId", location_id)];
    let camps := safe_get_json camps_resp in
    contacts_resp ← requests_get (API "/contacts") headers
                      [("locationId", location_id); ("limit", PInt 10)];
    let contacts := safe_get_json contacts_resp in
    mret (Page (jsonify (PDict [("location", locs);
                                ("campaigns", camps);
                                ("contacts", contacts)]))).

End App.

(** ** Vocabulary of the statements *)

(** The session [store_tokens] leaves behind when it runs to its end. *)
Definition stored (access refresh : pyval) (expires_at : Z) (loc company : pyval)
    (s : gmap string pyval) : gmap string pyval :=
  <["company_id" := company]>
    (<["location_id" := loc]>
       (<["token_expires_at" := PInt expires_at]>
          (<["refresh_token" := refresh]>
             (<["access_token" := access]> s)))).

(** The request [refresh_access_token] posts to the token endpoint. *)
Definition refresh_request (cfg : Config) (refresh : pyval) : Request :=
  {| req_method := "POST"; req_url := TOKEN_URL; req_headers := [];
     req_params := [];
     req_data := [("grant_type", PStr "refresh_token");
                  ("refresh_token", refresh);
                  ("client_id", PStr (CLIENT_ID cfg));
                  ("client_secret", PStr (CLIENT_SECRET cfg))];
     req_json := None |}.

(** The request the callback posts to exchange an authorization code. *)
Definition exchange_request (cfg : Config) (code : pyval) : Request :=
  {| req_method := "POST"; req_url := TOKEN_URL; req_headers := [];
     req_params := [];
     req_data := [("grant_type", PStr "authorization_code");
                  ("client_id", PStr (CLIENT_ID cfg));
                  ("client_secret", PStr (CLIENT_SECRET cfg));
                  ("code", code);
                  ("redirect_uri", PStr (REDIRECT_URI cfg))];
     req_json := None |}.

(** The lifetime a token response declares: [int(tokens.get("expires_in", 3600))]. *)
Definition lifetime (env : Env) (d : list (string * pyval)) : result Z :=
  py_int (int_of_str env) (default (PInt 3600) (dict_lookup "expires_in" d)).

(** The tenant a token response is stored under:
    [location_id if location_id else tokens["locationId"]]. *)
Definition tenant (location_id : pyval) (d : list (string * pyval)) : option pyval :=
  if truthy location_id then Some location_id else dict_lookup "locationId" d.


(** One more clock reading taken; one more request sent. *)
Definition tick (st : State) : State :=
  {| session := session st; ticks := S (ticks st); sent := sent st |}.

Definition logged (st : State) (r : Request) : State :=
  {| session := session st; ticks := ticks st; sent := sent st ++ [r] |}.

(** [session.get(k)] as a value. *)
Definition stored_value (st : State) (k : string) : pyval :=
  default PNone (session st !! k).

(** The credential record has no refresh token ([session.get] gives [None]). *)
Definition no_refresh_token (st : State) : Prop :=
  stored_value st "refresh_token" = PNone.

(** The stored expiry has passed at the next clock reading. *)
Definition expired (env : Env) (st : State) : Prop :=
  exists e, session st !! "token_expires_at" = Some (PInt e) /\
            e <= clock env (ticks st).

(** *** Worlds to run the handlers in *)

Definition demo_cfg : Config :=
  {| CLIENT_ID := "client"; CLIENT_SECRET := "secret";
     REDIRECT_URI := "https://app.example/callback" |}.

Definition answer (status : Z) (j : option pyval) : Response :=
  {| status_code := status; text := "body"; json := j |}.

(** A world whose clock stands at [now] and whose servers always give the
    same answer. *)
Definition steady (now : Z) (resp : option Response) : Env :=
  {| clock := fun _ => now; network := fun _ _ => resp;
     int_of_str := fun _ => None |}.

Definition with_session (l : list (string * pyval)) : State :=
  {| session := list_to_map l; ticks := 0; sent := [] |}.

Definition plain_request (query : list (string * string)) : Inbound :=
  {| args := query; in_headers := []; body := None |}.

(** The token response of the specification's scenario. *)
Definition tokens60 : pyval :=
  PDict [("access_token", PStr "A"); ("refresh_token", PStr "R");
         ("expires_in", PInt 60); ("locationId", PStr "L1");
         ("companyId", PStr "C1")].

(** *** Statements of the specification that the code does not meet *)

(** An expired record without a refresh token makes [get_valid_access_token]
    fail with [MissingRefreshToken] before any request is sent. *)
Definition missing_refresh_token_fails_closed : Prop :=
  forall cfg env st,
    no_refresh_token st -> expired env st ->
    exists st', get_valid_access_token cfg env st
                = (Raise (Typed MissingRefreshToken), st') /\
                sent st' = sent st.

(** An expired record with no refresh token, and a token endpoint that
    rejects the request. *)
Definition lapsed : State :=
  with_session [("access_token", PStr "A"); ("token_expires_at", PInt 900)].

Definition rejecting : Env := steady 1000 (Some (answer 401 None)).

(** A refresh leaves alone what its response does not mention. *)
Definition refresh_preserves_omitted_fields : Prop :=
  forall cfg env st st' resp d,
    network env (length (sent st))
      (refresh_request cfg (stored_value st "refresh_token")) = Some resp ->
    json resp = Some (PDict d) ->
    refresh_access_token cfg env st = (Ok tt, st') ->
    (dict_lookup "refresh_token" d = None ->
     session st' !! "refresh_token" = session st !! "refresh_token") /\
    (dict_lookup "locationId" d = None ->
     session st' !! "location_id" = session st !! "location_id") /\
    (dict_lookup "companyId" d = None ->
     session st' !! "company_id" = session st !! "company_id").

(** A refresh whose response names a tenant stores that tenant. *)
Definition refresh_adopts_new_location : Prop :=
  forall cfg env st st' resp d new,
    network env (length (sent st))
      (refresh_request cfg (stored_value st "refresh_token")) = Some resp ->
    json resp = Some (PDict d) ->
    dict_lookup "locationId" d = Some new ->
    refresh_access_token cfg env st = (Ok tt, st') ->
    session st' !! "location_id" = Some new.

(** An authorized session whose token has lapsed. *)
Definition authorized : State :=
  with_session [("access_token", PStr "A"); ("refresh_token", PStr "R");
                ("token_expires_at", PInt 900); ("location_id", PStr "L1");
                ("company_id", PStr "C1")].

(** A token endpoint that rotates nothing: its answer has no [refresh_token]. *)
Definition terse : Env :=
  steady 1000 (Some (answer 200 (Some (PDict [("access_token", PStr "B");
                                              ("expires_in", PInt 3600);
                                              ("companyId", PStr "C1")])))).

(** A token endpoint that names another tenant. *)
Definition moving : Env :=
  steady 1000 (Some (answer 200 (Some (PDict [("access_token", PStr "B");
                                              ("refresh_token", PStr "R2");
                                              ("locationId", PStr "L2");
                                              ("companyId", PStr "C1")])))).

(** The credential envelope [build_response] returns for a session. *)
Definition envelope (st : State) (expires_in : Z) : Reply :=
  jsonify (PDict [("access_token", stored_value st "access_token");
                  ("refresh_token", stored_value st "refresh_token");
                  ("expires_in", PInt expires_in);
                  ("token_type", PStr "bearer");
                  ("location_id", stored_value st "location_id");
                  ("company_id", stored_value st "company_id")]).

(** The callback is on its exchange path: no error reported, a code given,
    no access token in the session. *)
Definition exchanging (rq : Inbound) (st : State) : Prop :=
  truthy (args_get rq "error") = false /\
  truthy (args_get rq "code") = true /\
  truthy (stored_value st "access_token") = false.

(** An exchange followed at once by [get_valid_access_token] hands out the
    token just stored and sends nothing. *)
Definition exchange_then_get_needs_no_refresh : Prop :=
  forall cfg env rq st reply st1,
    exchanging rq st ->
    callback cfg env rq st = (Ok reply, st1) ->
    clock env (ticks st1) = clock env (ticks st) ->
    exists st2,
      get_valid_access_token cfg env st1
        = (Ok (stored_value st1 "access_token"), st2) /\
      sent st2 = sent st1.

(** A 2xx token response without [access_token] is reported as
    [MalformedTokenResponse]. *)
Definition malformed_response_is_typed : Prop :=
  forall cfg env rq st resp d,
    exchanging rq st ->
    network env (length (sent st)) (exchange_request cfg (args_get rq "code"))
      = Some resp ->
    200 <= status_code resp < 300 ->
    json resp = Some (PDict d) ->
    dict_lookup "access_token" d = None ->
    exists st', callback cfg env rq st
                = (Raise (Typed MalformedTokenResponse), st').


(** A token endpoint whose tokens live no longer than the safety margin. *)
Definition short_lived : Env :=
  steady 1000 (Some (answer 200 (Some (PDict [("access_token", PStr "A");
                                              ("refresh_token", PStr "R");
                                              ("expires_in", PInt 30);
                                              ("locationId", PStr "L1");
                                              ("companyId", PStr "C1")])))).

(** A token endpoint that answers 200 with an empty object. *)
Definition hollow : Env := steady 1000 (Some (answer 200 (Some (PDict [])))).

(** The token endpoint of the specification's scenario. *)
Definition issuing : Env := steady 1000 (Some (answer 200 (Some tokens60))).

(** The same endpoint under a clock that reads 1000 twice and 1031 from then
    on. *)
Definition ageing : Env :=
  {| clock := fun n => if (n <? 2)%nat then 1000 else 1031;
     network := fun _ _ => Some (answer 200 (Some tokens60));
     int_of_str := fun _ => None |}.

(** An authorized, unexpired session. *)
Definition current : State :=
  with_session [("access_token", PStr "A"); ("refresh_token", PStr "R");
                ("token_expires_at", PInt 2000); ("location_id", PStr "L1");
                ("company_id", PStr "C1")].

(** *** Search, then enrich *)

Definition detail_request (headers : list (string * header)) (id : pyval) : Request :=
  {| req_method := "GET"; req_url := API_item "/conversations/" id;
     req_headers := headers; req_params := []; req_data := []; req_json := None |}.

(** The entry a detail answer contributes to [conversations_detailed]. *)
Definition entry_for (id : pyval) (resp : Response) : pyval :=
  if status_code resp =? 200 then
    match json resp with
    | Some detail => detail
    | None => parse_failure id resp
    end
  else fetch_failure id resp.

Definition is_object (v : pyval) : Prop := exists d, v = PDict d.

(** [conv.get("id")] of a summary record. *)
Definition conversation_id (conv : pyval) : pyval :=
  match conv with
  | PDict d => default PNone (dict_lookup "id" d)
  | _ => PNone
  end.

(** The ids the loop asks details for: the non-empty ones, in order. *)
Definition identified (conversations : list pyval) : list pyval :=
  List.filter truthy (map conversation_id conversations).

(** The server answers the detail requests for [ids], sent from the [n]-th
    request on, with [resps]. *)
Definition answered (env : Env) (headers : list (string * header)) (n : nat)
    (ids : list pyval) (resps : list Response) : Prop :=
  length resps = length ids /\
  forall i id resp,
    ids !! i = Some id -> resps !! i = Some resp ->
    network env (n + i) (detail_request headers id) = Some resp.

Definition summary (id : string) : pyval :=
  PDict [("id", PStr id); ("type", PStr "TYPE_PHONE")].

Definition detail (id : string) : pyval :=
  PDict [("id", PStr id); ("unreadCount", PInt 0)].

Definition api_headers : list (string * header) :=
  [("Authorization", HBearer (PStr "A")); ("Version", HLit "2021-04-15")].

(** *** Which token, which tenant *)

Fixpoint strip_prefix (p s : string) : option string :=
  match p, s with
  | EmptyString, _ => Some s
  | String c p', String c' s' =>
      if Ascii.eqb c c' then strip_prefix p' s' else None
  | String _ _, EmptyString => None
  end.

(** The token a request brings along, in the specification's order of
    precedence: the [Authorization: Bearer] header, then the [access_token]
    query parameter. *)
Definition explicit_token (rq : Inbound) : option string :=
  match first_value "Authorization" (in_headers rq) ≫= strip_prefix "Bearer " with
  | Some t => Some t
  | None =>
      match first_value "access_token" (args rq) with
      | Some q => if String.eqb q "" then None else Some q
      | None => None
      end
  end.

Definition locations_search_request (token : pyval) (params : list (string * pyval))
  : Request :=
  {| req_method := "GET"; req_url := API "/locations/search";
     req_headers := [("Authorization", HBearer token);
                     ("Version", HLit "2021-07-28")];
     req_params := params; req_data := []; req_json := None |}.

(** A token brought by the request is the one sent upstream, and the session
    is neither consulted nor refreshed. *)
Definition explicit_token_bypasses_session : Prop :=
  forall cfg env rq st token,
    explicit_token rq = Some token ->
    sent (snd (search_locations cfg env rq st)) =
    (sent st ++ [locations_search_request (PStr token) (to_dict (args rq))])%list.

Fixpoint header_lookup (k : string) (l : list (string * header)) : option header :=
  match l with
  | [] => None
  | (k', v) :: l' => if String.eqb k k' then Some v else header_lookup k l'
  end.

(** The requests added to [before] all carry [token] as their bearer. *)
Definition sent_with_token (token : pyval) (before after : list Request) : Prop :=
  exists new,
    after = (before ++ new)%list /\
    Forall (fun r => header_lookup "Authorization" (req_headers r)
                     = Some (HBearer token)) new.

Definition with_headers (rq : Inbound) (headers : list (string * string)) : Inbound :=
  {| args := args rq; in_headers := headers; body := body rq |}.

(** A handler that takes its token from the session and from nowhere else. *)
Definition session_token_only (cfg : Config) (env : Env) (handler : Inbound -> M Reply)
  : Prop :=
  forall rq st,
    (forall headers, handler (with_headers rq headers) st = handler rq st) /\
    match get_valid_access_token cfg env st with
    | (Raise x, st1) => handler rq st = (Raise x, st1)
    | (Ok token, st1) =>
        if truthy token
        then sent_with_token token (sent st1) (sent (snd (handler rq st)))
        else handler rq st = (Ok no_token_reply, st1)
    end.

(** A computation all of whose requests carry [token] as their bearer. *)
Definition bears (token : pyval) {A} (m : M A) : Prop :=
  forall st, sent_with_token token (sent st) (sent (snd (m st))).

(** The same for [profile], which reads nothing of the request and answers
    an empty token with a redirect. *)
Definition profile_token_from_session (cfg : Config) (env : Env) : Prop :=
  forall st,
    match get_valid_access_token cfg env st with
    | (Raise x, st1) => profile cfg env st = (Raise x, st1)
    | (Ok token, st1) =>
        if truthy token
        then sent_with_token token (sent st1) (sent (snd (profile cfg env st)))
        else profile cfg env st = (Ok (RedirectTo "index"), st1)
    end.

Definition bearing (token : string) : Inbound :=
  {| args := [("access_token", "Q")];
     in_headers := [("Authorization", "Bearer " +:+ token)];
     body := None |}.

(** The tenant a request sent upstream names: in its JSON body when it has
    one, in its query parameters otherwise. *)
Definition tenant_sent (r : Request) : option pyval :=
  match req_json r with
  | Some (PDict d) => dict_lookup "locationId" d
  | _ => dict_lookup "locationId" (req_params r)
  end.

(** The tenant of a request in the specification's order of precedence:
    query parameter, then JSON body field, then the session. *)
Definition tenant_by_precedence (rq : Inbound) (st : State) : pyval :=
  match first_value "locationId" (args rq) with
  | Some q => PStr q
  | None =>
      match body rq with
      | Some (PDict d) =>
          default (stored_value st "location_id") (dict_lookup "locationId" d)
      | _ => stored_value st "location_id"
      end
  end.

Definition three_tier_tenant (cfg : Config) (env : Env) (handler : Inbound -> M Reply)
  : Prop :=
  forall rq st token st1 r,
    get_valid_access_token cfg env st = (Ok token, st1) ->
    sent (snd (handler rq st)) = (sent st1 ++ [r])%list ->
    tenant_sent r = Some (tenant_by_precedence rq st1).

(** Every handler that needs a tenant resolves it in those three tiers. *)
Definition tenant_resolved_in_three_tiers : Prop :=
  forall cfg env,
    three_tier_tenant cfg env (get_campaigns cfg env) /\
    three_tier_tenant cfg env (search_contacts cfg env).

(** A request that names one tenant in its query and another in its body. *)
Definition torn : Inbound :=
  {| args := [("locationId", "Q")]; in_headers := [];
     body := Some (PDict [("locationId", PStr "B")]) |}.

Definition contacts_request (token body : pyval) : Request :=
  {| req_method := "POST"; req_url := API "/contacts/search";
     req_headers := [("Authorization", HBearer token);
                     ("Version", HLit "2021-07-28");
                     ("Content-Type", HLit "application/json")];
     req_params := []; req_data := []; req_json := Some body |}.

Definition campaigns_request (token : pyval) (params : list (string * pyval))
  : Request :=
  {| req_method := "GET"; req_url := API "/campaigns";
     req_headers := [("Authorization", HBearer token);
                     ("Version", HLit "2021-07-28")];
     req_params := params; req_data := []; req_json := None |}.

Definition conversations_search_request (token : pyval)
    (params : list (string * pyval)) : Request :=
  {| req_method := "GET"; req_url := API "/conversations/search";
     req_headers := [("Authorization", HBearer token);
                     ("Version", HLit "2021-04-15")];
     req_params := params; req_data := []; req_json := None |}.


(** The search found [conversations] for the request: the token lookup gave
    [token], the tenant was resolved into [params], and the search was
    answered 200 with an object whose [conversations] is that list. *)
Definition search_found (cfg : Config) (env : Env) (rq : Inbound) (st : State)
    (token : pyval) (st1 : State) (params : list (string * pyval))
    (conversations : list pyval) : Prop :=
  get_valid_access_token cfg env st = (Ok token, st1) /\
  truthy token = true /\
  location_from_session "No locationId found in session or request."
    (to_dict (args rq)) st1 = (Ok (inr params), st1) /\
  exists resp found,
    network env (length (sent st1)) (conversations_search_request token params)
      = Some resp /\
    status_code resp = 200 /\
    json resp = Some (PDict found) /\
    dict_lookup "conversations" found = Some (PList conversations).

(** What the handler answers when [detailed] is what it collected. *)
Definition enriched (conversations detailed : list pyval) : Reply :=
  jsonify (PDict [("conversations_summary", PList conversations);
                  ("conversations_detailed", PList detailed)]).

(** The search-then-enrich operation issues one detail call per summary
    record and yields one entry per summary record. *)
Definition one_detail_call_per_summary : Prop :=
  forall cfg env rq st token st1 params conversations,
    search_found cfg env rq st token st1 params conversations ->
    Forall is_object conversations ->
    (forall n r, is_Some (network env n r)) ->
    exists detailed st',
      get_conversations_with_details cfg env rq st
        = (Ok (enriched conversations detailed), st') /\
      length detailed = length conversations /\
      length (sent st') = (length (sent st1) + 1 + length conversations)%nat.

(** A server that answers the first request it receives with the summaries
    [found], fails the request numbered [failing] with a 500 and answers
    every other one with the details of the conversation asked for. *)
Definition conversing (found : list pyval) (failing : nat) : Env :=
  {| clock := fun _ => 1000;
     network := fun n r =>
       if (n =? 0)%nat then
         Some (answer 200 (Some (PDict [("conversations", PList found)])))
       else if (n =? failing)%nat then Some (answer 500 None)
       else match req_url r with
            | API_item _ (PStr id) => Some (answer 200 (Some (detail id)))
            | _ => Some (answer 404 None)
            end;
     int_of_str := fun _ => None |}.

(** *** Vocabulary of the further properties *)

(** [reply] is the parsed body of a 200 answer to the last request sent. *)
Definition relayed_ok (env : Env) (sent' : list Request) (reply : Reply) : Prop :=
  exists before r resp data,
    sent' = (before ++ [r])%list /\
    network env (length before) r = Some resp /\
    status_code resp = 200 /\
    json resp = Some data /\
    reply = jsonify data.

(** A handler that answers 200 only with what upstream answered 200 with. *)
Definition honest_200 (env : Env) (handler : Inbound -> M Reply) : Prop :=
  forall rq st reply st',
    handler rq st = (Ok reply, st') ->
    r_status reply = 200 ->
    relayed_ok env (sent st') reply.

(** A computation that leaves the session as it found it, however it ends. *)
Definition quiet {A} (m : M A) : Prop :=
  forall st, session (snd (m st)) = session st.

(** A handler whose only effect on the session is that of the token lookup
    it starts with. *)
Definition session_as_after_lookup (cfg : Config) (env : Env)
    (handler : Inbound -> M Reply) : Prop :=
  forall rq st,
    session (snd (handler rq st))
    = session (snd (get_valid_access_token cfg env st)).

Definition users_request (token : pyval) (params : list (string * pyval)) : Request :=
  {| req_method := "GET"; req_url := API "/users/search";
     req_headers := [("Authorization", HBearer token);
                     ("Version", HLit "2021-07-28")];
     req_params := params; req_data := []; req_json := None |}.

Definition opportunities_request (token : pyval) (params : list (string * pyval))
  : Request :=
  {| req_method := "GET"; req_url := API "/opportunities/search";
     req_headers := [("Authorization", HBearer token);
                     ("Version", HLit "2021-07-28")];
     req_params := params; req_data := []; req_json := None |}.

(** The two calls of [search_location_and_get_campaigns]. *)
Definition filtered_search_request (token : pyval) (rq : Inbound) : Request :=
  locations_search_request token
    (List.filter (fun kv => existsb (String.eqb (fst kv)) search_keys)
                 (to_dict (args rq))).

Definition fixed_campaigns_request (token status : pyval) : Request :=
  campaigns_request token
    (if truthy status
     then [("locationId", PStr "Vhl9bqjezncp1pfb1gu4"); ("status", status)]
     else [("locationId", PStr "Vhl9bqjezncp1pfb1gu4")]).

(** The three calls of [profile]. *)
Definition profile_requests (token location_id : pyval) : list Request :=
  let headers := [("Authorization", HBearer token)] in
  [ {| req_method := "GET"; req_url := API_item "/locations/" location_id;
       req_headers := headers; req_params := []; req_data := [];
       req_json := None |};
    {| req_method := "GET"; req_url := API "/campaigns";
       req_headers := headers; req_params := [("locationId", location_id)];
       req_data := []; req_json := None |};
    {| req_method := "GET"; req_url := API "/contacts";
       req_headers := headers;
       req_params := [("locationId", location_id); ("limit", PInt 10)];
       req_data := []; req_json := None |} ].

(** A query that names the tenant as [locationId] and the company. *)
Definition users_query : Inbound :=
  plain_request [("companyId", "C7"); ("locationId", "Q")].

(** A server that answers the first request it receives with a list of two
    locations and every later one with a list of campaigns. *)
Definition catalogue : Env :=
  {| clock := fun _ => 1000;
     network := fun n _ =>
       match n with
       | 0%nat => Some (answer 200 (Some (PDict [("locations",
                          PList [PDict [("id", PStr "L7")];
                                 PDict [("id", PStr "L8")]])])))
       | _ => Some (answer 200 (Some (PDict [("campaigns", PList [PStr "c"])])))
       end;
     int_of_str := fun _ => None |}.

(** A server that answers everything with a 503 page that is not JSON. *)
Definition down : Env := steady 1000 (Some (answer 503 None)).

(** The requests added to [before] all satisfy [P]. *)
Definition sent_only (P : Request -> Prop) (before after : list Request) : Prop :=
  exists new, after = (before ++ new)%list /\ Forall P new.

(** A request for campaigns names the fixed tenant. *)
Definition campaigns_of_fixed_tenant (r : Request) : Prop :=
  req_url r = API "/campaigns" ->
  tenant_sent r = Some (PStr "Vhl9bqjezncp1pfb1gu4").
(** * Properties *)

(** ** Running handlers symbolically *)

Ltac unfold_m :=
  unfold requests_post_form, requests_post_json, requests_get,
    raise_for_status, resp_json, get_json in *;
  unfold send, time_now, session_get, session_get_or, session_getitem,
    session_has, session_set, lift, throw, mbind, M_bind, mret, M_ret in *.

Ltac mred :=
  cbn [session ticks sent fst snd default py_get py_getitem py_setitem py_int
       status_code text json negb andb orb] in *.

Ltac mrun := unfold_m; mred.

Lemma stored_access a r x l c s : stored a r x l c s !! "access_token" = Some a.
Proof. unfold stored. do 4 (rewrite lookup_insert_ne by done). apply lookup_insert_eq. Qed.

Lemma stored_refresh a r x l c s : stored a r x l c s !! "refresh_token" = Some r.
Proof. unfold stored. do 3 (rewrite lookup_insert_ne by done). apply lookup_insert_eq. Qed.

Lemma stored_expiry a r x l c s :
  stored a r x l c s !! "token_expires_at" = Some (PInt x).
Proof. unfold stored. do 2 (rewrite lookup_insert_ne by done). apply lookup_insert_eq. Qed.

Lemma stored_location a r x l c s : stored a r x l c s !! "location_id" = Some l.
Proof. unfold stored. rewrite lookup_insert_ne by done. apply lookup_insert_eq. Qed.

Lemma stored_company a r x l c s : stored a r x l c s !! "company_id" = Some c.
Proof. unfold stored. apply lookup_insert_eq. Qed.

Section TokenStore.

Variable cfg : Config.
Variable env : Env.

Lemma store_tokens_ok d location_id st access secs loc company :
  dict_lookup "access_token" d = Some access ->
  lifetime env d = Ok secs ->
  tenant location_id d = Some loc ->
  dict_lookup "companyId" d = Some company ->
  store_tokens env (PDict d) location_id st =
    (Ok tt, {| session := stored access (default PNone (dict_lookup "refresh_token" d))
                            (clock env (ticks st) + secs - 30) loc company (session st);
               ticks := S (ticks st); sent := sent st |}).
Proof.
  unfold lifetime, tenant, store_tokens. intros Ha Hs Hl Hc. mrun.
  rewrite Ha. mred. rewrite Hs. mred.
  destruct (truthy location_id); mred.
  - injection Hl as <-. rewrite Hc. reflexivity.
  - rewrite Hl, Hc. reflexivity.
Qed.

Lemma store_tokens_inv tokens location_id st st' :
  store_tokens env tokens location_id st = (Ok tt, st') ->
  exists d access secs loc company,
    tokens = PDict d /\
    dict_lookup "access_token" d = Some access /\
    lifetime env d = Ok secs /\
    tenant location_id d = Some loc /\
    dict_lookup "companyId" d = Some company /\
    st' = {| session := stored access (default PNone (dict_lookup "refresh_token" d))
                          (clock env (ticks st) + secs - 30) loc company (session st);
             ticks := S (ticks st); sent := sent st |}.
Proof.
  intros H.
  destruct tokens as [| | | |l|d]; try (unfold store_tokens in H; mrun; discriminate).
  destruct (dict_lookup "access_token" d) as [access|] eqn:Ha;
    [|unfold store_tokens in H; mrun; rewrite Ha in H; discriminate].
  destruct (lifetime env d) as [secs|x] eqn:Hs;
    [|unfold store_tokens, lifetime in *; mrun; rewrite Ha in H; mred;
      rewrite Hs in H; discriminate].
  destruct (tenant location_id d) as [loc|] eqn:Hl;
    [|unfold store_tokens, lifetime, tenant in *; mrun; rewrite Ha in H; mred;
      rewrite Hs in H; mred; destruct (truthy location_id); [discriminate|];
      rewrite Hl in H; discriminate].
  destruct (dict_lookup "companyId" d) as [company|] eqn:Hc;
    [|unfold store_tokens, lifetime, tenant in *; mrun; rewrite Ha in H; mred;
      rewrite Hs in H; mred; destruct (truthy location_id); mred;
      [|rewrite Hl in H]; rewrite Hc in H; discriminate].
  rewrite (store_tokens_ok _ _ _ _ _ _ _ Ha Hs Hl Hc) in H.
  injection H as <-. by exists d, access, secs, loc, company.
Qed.

(** Every way [store_tokens] can end, one goal each. *)
Ltac store_tokens_cases tokens :=
  unfold store_tokens; mrun;
  destruct tokens; mred; try done;
  repeat (case_match; simplify_eq; mred; try done).

Lemma py_int_untyped f v e : py_int f v = Raise (Typed e) -> False.
Proof. destruct v; cbn; repeat case_match; done. Qed.

Lemma store_tokens_sent tokens location_id st :
  sent (snd (store_tokens env tokens location_id st)) = sent st.
Proof. store_tokens_cases tokens. Qed.

Lemma store_tokens_untyped tokens location_id st e :
  fst (store_tokens env tokens location_id st) <> Raise (Typed e).
Proof.
  store_tokens_cases tokens.
  intros [= ->]. eapply py_int_untyped; eauto.
Qed.

(** A non-empty tenant passed to [store_tokens] is what the session holds
    afterwards if it held it before, however the call ends. *)
Lemma store_tokens_keeps_location tokens location_id st :
  truthy location_id = true ->
  session st !! "location_id" = Some location_id ->
  session (snd (store_tokens env tokens location_id st)) !! "location_id"
    = Some location_id.
Proof.
  intros Ht Hs. unfold store_tokens; mrun. rewrite Ht.
  destruct tokens; mred; try done.
  repeat (case_match; simplify_eq; mred; try done);
    repeat (rewrite lookup_insert_eq || (rewrite lookup_insert_ne by done)); done.
Qed.

Lemma token_expired_unset st :
  session st !! "token_expires_at" = None ->
  token_expired env st = (Ok true, st).
Proof.
  intros H. unfold token_expired. mrun. rewrite H.
  rewrite bool_decide_eq_false_2; [done|]. by intros [? ?].
Qed.

Lemma token_expired_at st e :
  session st !! "token_expires_at" = Some (PInt e) ->
  token_expired env st = (Ok (e <=? clock env (ticks st)), tick st).
Proof.
  intros H. unfold token_expired. mrun. rewrite H.
  rewrite bool_decide_eq_true_2; [|by eexists]. mred. by rewrite H.
Qed.

Lemma token_expired_sent st : sent (snd (token_expired env st)) = sent st.
Proof.
  unfold token_expired. mrun.
  case_bool_decide as Hs; mred; [|done].
  destruct Hs as [v Hv]. rewrite Hv. by destruct v.
Qed.

Lemma token_expired_session st : session (snd (token_expired env st)) = session st.
Proof.
  unfold token_expired. mrun.
  case_bool_decide as Hs; mred; [|done].
  destruct Hs as [v Hv]. rewrite Hv. by destruct v.
Qed.

Lemma token_expired_untyped st e : fst (token_expired env st) <> Raise (Typed e).
Proof.
  unfold token_expired. mrun.
  case_bool_decide as Hs; mred; [|done].
  destruct Hs as [v Hv]. rewrite Hv. by destruct v.
Qed.

(** [refresh_access_token], one step at a time. *)
Lemma refresh_access_token_run st :
  refresh_access_token cfg env st =
    let rq := refresh_request cfg (stored_value st "refresh_token") in
    match network env (length (sent st)) rq with
    | None => (Raise ConnectionError, logged st rq)
    | Some resp =>
        if (400 <=? status_code resp) && (status_code resp <? 600)
        then (Raise (HTTPError (status_code resp)), logged st rq)
        else match json resp with
             | None => (Raise JSONDecodeError, logged st rq)
             | Some tokens =>
                 store_tokens env tokens (stored_value st "location_id") (logged st rq)
             end
    end.
Proof.
  unfold refresh_access_token, refresh_request, stored_value, logged. mrun.
  cbv zeta. destruct (network env _ _) as [resp|]; [|done].
  destruct (_ && _); mred; [done|].
  by destruct (json resp).
Qed.

Lemma refresh_access_token_sent st :
  sent (snd (refresh_access_token cfg env st)) =
  (sent st ++ [refresh_request cfg (stored_value st "refresh_token")])%list.
Proof.
  rewrite refresh_access_token_run. cbv zeta.
  repeat case_match; try done. by rewrite store_tokens_sent.
Qed.

Lemma refresh_access_token_untyped st e :
  fst (refresh_access_token cfg env st) <> Raise (Typed e).
Proof.
  rewrite refresh_access_token_run. cbv zeta.
  repeat case_match; try done. apply store_tokens_untyped.
Qed.

(** [get_valid_access_token] on a token that has not expired: one clock
    reading, nothing else. *)
Lemma get_valid_access_token_fresh st e :
  session st !! "token_expires_at" = Some (PInt e) ->
  clock env (ticks st) < e ->
  get_valid_access_token cfg env st = (Ok (stored_value st "access_token"), tick st).
Proof.
  intros He Hlt. unfold get_valid_access_token.
  unfold mbind at 1 2, M_bind. rewrite (token_expired_at _ _ He).
  replace (e <=? clock env (ticks st)) with false by lia.
  reflexivity.
Qed.

(** On an undated or expired token it runs the refresh first. *)
Lemma get_valid_access_token_undated st :
  session st !! "token_expires_at" = None ->
  get_valid_access_token cfg env st =
    match refresh_access_token cfg env st with
    | (Ok _, st') => (Ok (stored_value st' "access_token"), st')
    | (Raise x, st') => (Raise x, st')
    end.
Proof.
  intros Hn. unfold get_valid_access_token. unfold mbind at 1 2, M_bind.
  rewrite (token_expired_unset _ Hn).
  destruct (refresh_access_token cfg env st) as [[[]|x] st']; reflexivity.
Qed.

Lemma get_valid_access_token_expired st e :
  session st !! "token_expires_at" = Some (PInt e) ->
  e <= clock env (ticks st) ->
  get_valid_access_token cfg env st =
    match refresh_access_token cfg env (tick st) with
    | (Ok _, st') => (Ok (stored_value st' "access_token"), st')
    | (Raise x, st') => (Raise x, st')
    end.
Proof.
  intros He Hle. unfold get_valid_access_token. unfold mbind at 1 2, M_bind.
  rewrite (token_expired_at _ _ He).
  replace (e <=? clock env (ticks st)) with true by lia.
  destruct (refresh_access_token cfg env (tick st)) as [[[]|x] st']; reflexivity.
Qed.

Lemma get_valid_access_token_untyped st e :
  fst (get_valid_access_token cfg env st) <> Raise (Typed e).
Proof.
  unfold get_valid_access_token. unfold mbind at 1 2, M_bind.
  pose proof (token_expired_untyped st e) as Ht.
  destruct (token_expired env st) as [[[]|x] st1]; cbn [fst] in *.
  - pose proof (refresh_access_token_untyped st1 e) as Hr.
    destruct (refresh_access_token cfg env st1) as [[[]|y] st2]; cbn [fst] in *;
      [done|]. intros [= ->]. by apply Hr.
  - done.
  - intros [= ->]. by apply Ht.
Qed.

(** What a refresh that succeeds has done. *)
Lemma refresh_access_token_inv st st' :
  refresh_access_token cfg env st = (Ok tt, st') ->
  let rq := refresh_request cfg (stored_value st "refresh_token") in
  exists resp d access secs loc company,
    network env (length (sent st)) rq = Some resp /\
    json resp = Some (PDict d) /\
    dict_lookup "access_token" d = Some access /\
    lifetime env d = Ok secs /\
    tenant (stored_value st "location_id") d = Some loc /\
    dict_lookup "companyId" d = Some company /\
    st' = {| session := stored access (default PNone (dict_lookup "refresh_token" d))
                          (clock env (ticks st) + secs - 30) loc company (session st);
             ticks := S (ticks st); sent := (sent st ++ [rq])%list |}.
Proof.
  rewrite refresh_access_token_run. cbv zeta.
  destruct (network env _ _) as [resp|] eqn:Hnet; [|done].
  destruct (_ && _); [done|].
  destruct (json resp) as [tokens|] eqn:Hj; [|done].
  intros H.
  destruct (store_tokens_inv _ _ _ _ H)
    as (d & access & secs & loc & company & -> & Ha & Hs & Hl & Hc & ->).
  exists resp, d, access, secs, loc, company. repeat split; done.
Qed.

(** *** The callback, path by path *)

Lemma build_response_run st :
  build_response env st =
    match py_sub_int (default (PInt 0) (session st !! "token_expires_at"))
                     (clock env (ticks st)) with
    | Ok remaining => (Ok (envelope st (Z.max remaining 0)), tick st)
    | Raise x => (Raise x, tick st)
    end.
Proof. unfold build_response. mrun. by destruct (py_sub_int _ _). Qed.


Lemma callback_exchanging rq st :
  exchanging rq st ->
  callback cfg env rq st =
    let rq' := exchange_request cfg (args_get rq "code") in
    match network env (length (sent st)) rq' with
    | None => (Raise ConnectionError, logged st rq')
    | Some resp =>
        if (400 <=? status_code resp) && (status_code resp <? 600)
        then (Raise (HTTPError (status_code resp)), logged st rq')
        else match json resp with
             | None => (Raise JSONDecodeError, logged st rq')
             | Some tokens =>
                 match store_tokens env tokens (args_get rq "locationId")
                         (logged st rq') with
                 | (Ok _, st1) => build_response env st1
                 | (Raise x, st1) => (Raise x, st1)
                 end
             end
    end.
Proof.
  intros (He & Hc & Ha). unfold callback. rewrite He.
  unfold mbind at 1, M_bind. unfold session_get at 1.
  fold (stored_value st "access_token"). rewrite Ha, Hc. cbn [negb andb].
  unfold exchange_request, logged. mrun. cbv zeta.
  destruct (network env _ _) as [resp|]; [|done].
  destruct (_ && _); mred; [done|].
  by destruct (json resp).
Qed.

Lemma callback_authorized rq st :
  truthy (args_get rq "error") = false ->
  truthy (stored_value st "access_token") = true ->
  callback cfg env rq st =
    match token_expired env st with
    | (Ok true, st1) =>
        match refresh_access_token cfg env st1 with
        | (Ok _, st2) => build_response env st2
        | (Raise x, st2) => (Raise x, st2)
        end
    | (Ok false, st1) => build_response env st1
    | (Raise x, st1) => (Raise x, st1)
    end.
Proof.
  intros He Ha. unfold callback. rewrite He.
  unfold mbind at 1, M_bind. unfold session_get at 1.
  fold (stored_value st "access_token"). rewrite Ha. cbn [negb andb].
  unfold mbind at 1, M_bind.
  destruct (token_expired env st) as [[[]|x] st1]; [|done|done].
  unfold mbind, M_bind.
  by destruct (refresh_access_token cfg env st1) as [[[]|x] st2].
Qed.

(** What a code exchange that succeeds has done. *)
Lemma callback_exchanging_inv rq st reply st' :
  exchanging rq st ->
  callback cfg env rq st = (Ok reply, st') ->
  let rq' := exchange_request cfg (args_get rq "code") in
  exists resp d access secs loc company,
    network env (length (sent st)) rq' = Some resp /\
    json resp = Some (PDict d) /\
    dict_lookup "access_token" d = Some access /\
    lifetime env d = Ok secs /\
    tenant (args_get rq "locationId") d = Some loc /\
    dict_lookup "companyId" d = Some company /\
    st' = tick {| session := stored access
                               (default PNone (dict_lookup "refresh_token" d))
                               (clock env (ticks st) + secs - 30) loc company
                               (session st);
                  ticks := S (ticks st); sent := (sent st ++ [rq'])%list |}.
Proof.
  intros Hex Hrun. rewrite (callback_exchanging _ _ Hex) in Hrun.
  cbv zeta in *.
  destruct (network env _ _) as [resp|] eqn:Hnet; [|done].
  destruct (_ && _); [done|].
  destruct (json resp) as [tokens|] eqn:Hj; [|done].
  destruct (store_tokens env _ _ _) as [[[]|x] st0] eqn:Hstore; [|done].
  destruct (store_tokens_inv _ _ _ _ Hstore)
    as (d & access & secs & loc & company & -> & Ha & Hs & Hl & Hc & ->).
  rewrite build_response_run in Hrun.
  destruct (py_sub_int _ _); [|done]. injection Hrun as _ <-.
  exists resp, d, access, secs, loc, company. repeat split; done.
Qed.

End TokenStore.

(** ** Expiry *)

(** The expiry [store_tokens] writes, and what [get_valid_access_token] does
    one second after it. *)
Lemma store_tokens_expiry env tokens location_id st st' :
  store_tokens env tokens location_id st = (Ok tt, st') ->
  let t0 := clock env (ticks st) in
  exists d secs,
    tokens = PDict d /\
    lifetime env d = Ok secs /\
    (dict_lookup "expires_in" d = None -> secs = 3600) /\
    (forall e, dict_lookup "expires_in" d = Some (PInt e) -> secs = e) /\
    session st' !! "token_expires_at" = Some (PInt (t0 + secs - 30)) /\
    (dict_lookup "expires_in" d = Some (PInt 60) ->
     session st' !! "token_expires_at" = Some (PInt (t0 + 30)) /\
     forall cfg st2,
       session st2 = session st' ->
       clock env (ticks st2) = t0 + 31 ->
       sent (snd (get_valid_access_token cfg env st2)) =
       (sent st2 ++ [refresh_request cfg (stored_value st2 "refresh_token")])%list).
Proof.
  intros H t0.
  destruct (store_tokens_inv env _ _ _ _ H)
    as (d & access & secs & loc & company & -> & Ha & Hs & Hl & Hc & ->).
  assert (Hat : forall x, session
            {| session := stored access (default PNone (dict_lookup "refresh_token" d))
                            x loc company (session st);
               ticks := S (ticks st); sent := sent st |} !! "token_expires_at"
            = Some (PInt x)).
  { intros x. cbn [session]. unfold stored.
    do 2 (rewrite lookup_insert_ne by done). apply lookup_insert_eq. }
  assert (H60 : dict_lookup "expires_in" d = Some (PInt 60) -> secs = 60).
  { intros He. unfold lifetime in Hs. rewrite He in Hs. cbn in Hs. congruence. }
  exists d, secs.
  split; [done|]. split; [done|]. split; [|split; [|split; [|split]]].
  - intros Hn. unfold lifetime in Hs. rewrite Hn in Hs. cbn in Hs. congruence.
  - intros e He. unfold lifetime in Hs. rewrite He in Hs. cbn in Hs. congruence.
  - apply Hat.
  - rewrite (H60 H0), Hat. do 2 f_equal. lia.
  - intros cfg st2 Hsess Hclock. rewrite (H60 H0) in *.
    rewrite (get_valid_access_token_expired cfg env st2 (t0 + 60 - 30));
      [|by rewrite Hsess, Hat|lia].
    pose proof (refresh_access_token_sent cfg env (tick st2)) as Hsent.
    by destruct (refresh_access_token cfg env (tick st2)) as [[[]|x] st3].
Qed.

(** C4.  Every successful code exchange and every successful refresh stores
    as absolute expiry the clock reading plus the [expires_in] the response
    declares minus 30 seconds, [expires_in] counting as 3600 when the
    response has no such field.  With [expires_in = 60] stored at [t0] the
    expiry is [t0 + 30], and [get_valid_access_token] called when the clock
    reads [t0 + 31] posts a refresh to the token endpoint. *)
Theorem expiry_is_lifetime_minus_margin cfg env :
  (forall d, dict_lookup "expires_in" d = None -> lifetime env d = Ok 3600) /\
  (forall d e, dict_lookup "expires_in" d = Some (PInt e) -> lifetime env d = Ok e) /\
  (forall rq st reply st',
     exchanging rq st ->
     callback cfg env rq st = (Ok reply, st') ->
     exists resp d secs,
       network env (length (sent st)) (exchange_request cfg (args_get rq "code"))
         = Some resp /\
       json resp = Some (PDict d) /\
       lifetime env d = Ok secs /\
       session st' !! "token_expires_at"
         = Some (PInt (clock env (ticks st) + secs - 30))) /\
  (forall st st',
     refresh_access_token cfg env st = (Ok tt, st') ->
     exists resp d secs,
       network env (length (sent st))
         (refresh_request cfg (stored_value st "refresh_token")) = Some resp /\
       json resp = Some (PDict d) /\
       lifetime env d = Ok secs /\
       session st' !! "token_expires_at"
         = Some (PInt (clock env (ticks st) + secs - 30))) /\
  (forall rq st reply st' t0,
     exchanging rq st ->
     callback cfg env rq st = (Ok reply, st') ->
     clock env (ticks st) = t0 ->
     (exists resp d,
        network env (length (sent st)) (exchange_request cfg (args_get rq "code"))
          = Some resp /\
        json resp = Some (PDict d) /\
        dict_lookup "expires_in" d = Some (PInt 60)) ->
     session st' !! "token_expires_at" = Some (PInt (t0 + 30)) /\
     forall st2,
       session st2 = session st' ->
       clock env (ticks st2) = t0 + 31 ->
       sent (snd (get_valid_access_token cfg env st2)) =
       (sent st2 ++ [refresh_request cfg (stored_value st2 "refresh_token")])%list).
Proof.
  split; [|split; [|split; [|split]]].
  - intros d Hd. unfold lifetime. by rewrite Hd.
  - intros d e Hd. unfold lifetime. by rewrite Hd.
  - intros rq st reply st' Hex Hrun.
    destruct (callback_exchanging_inv cfg env _ _ _ _ Hex Hrun)
      as (resp & d & access & secs & loc & company
          & Hnet & Hj & Ha & Hs & Hl & Hc & ->).
    exists resp, d, secs. repeat split; try done.
    cbn [tick session]. apply stored_expiry.
  - intros st st' Hrun.
    destruct (refresh_access_token_inv cfg env _ _ Hrun)
      as (resp & d & access & secs & loc & company
          & Hnet & Hj & Ha & Hs & Hl & Hc & ->).
    exists resp, d, secs. repeat split; try done.
    cbn [session]. apply stored_expiry.
  - intros rq st reply st' t0 Hex Hrun Ht0 (resp0 & d0 & Hnet0 & Hj0 & H60).
    destruct (callback_exchanging_inv cfg env _ _ _ _ Hex Hrun)
      as (resp & d & access & secs & loc & company
          & Hnet & Hj & Ha & Hs & Hl & Hc & ->).
    cbv zeta in Hnet. rewrite Hnet0 in Hnet. injection Hnet as <-.
    rewrite Hj0 in Hj. injection Hj as <-.
    assert (secs = 60) as ->.
    { unfold lifetime in Hs. rewrite H60 in Hs. cbn in Hs. congruence. }
    assert (Hat : session (tick {| session := stored access
                     (default PNone (dict_lookup "refresh_token" d0))
                     (clock env (ticks st) + 60 - 30) loc company (session st);
                   ticks := S (ticks st);
                   sent := (sent st
                            ++ [exchange_request cfg (args_get rq "code")])%list |})
                  !! "token_expires_at" = Some (PInt (t0 + 30))).
    { cbn [tick session]. rewrite stored_expiry. do 2 f_equal. lia. }
    split; [exact Hat|].
    intros st2 Hsess Hclock.
    rewrite (get_valid_access_token_expired cfg env st2 (t0 + 30));
      [|by rewrite Hsess, Hat|lia].
    pose proof (refresh_access_token_sent cfg env (tick st2)) as Hsent.
    by destruct (refresh_access_token cfg env (tick st2)) as [[[]|x] st3].
Qed.

Lemma expiry_is_lifetime_minus_margin_witness :
  let st' := snd (callback demo_cfg ageing (plain_request [("code", "abc")])
                    (with_session [])) in
  session st' !! "token_expires_at" = Some (PInt (1000 + 30)) /\
  sent (snd (get_valid_access_token demo_cfg ageing st')) =
  (sent st' ++ [refresh_request demo_cfg (PStr "R")])%list.
Proof.
  intros st'.
  destruct (expiry_is_lifetime_minus_margin demo_cfg ageing)
    as (_ & _ & _ & _ & Hscenario).
  destruct (Hscenario (plain_request [("code", "abc")]) (with_session [])
              (envelope st' 30) st' 1000) as [Hat Hget].
  - repeat split; reflexivity.
  - vm_compute. reflexivity.
  - reflexivity.
  - exists (answer 200 (Some tokens60)).
    eexists. repeat split; reflexivity.
  - split; [exact Hat|]. apply (Hget st'); reflexivity.
Defined.



(** ** Refreshing without a refresh token *)

(** C2, as the specification states it, fails: the refresh is posted all the
    same, and what comes back is [requests]' own [HTTPError]. *)
Lemma missing_refresh_token_not_checked : ~ missing_refresh_token_fails_closed.
Proof.
  intros H.
  destruct (H demo_cfg rejecting lapsed) as (st' & Hrun & Hsent).
  - reflexivity.
  - exists 900. split; [reflexivity|]. vm_compute. discriminate.
  - apply (f_equal fst) in Hrun. vm_compute in Hrun. discriminate.
Qed.

(** C2, amended.  For a record whose refresh token is absent and whose expiry
    has passed, [get_valid_access_token] still posts one refresh request,
    with a null [refresh_token] field, to the token endpoint.  The call fails
    with [ConnectionError] when the endpoint cannot be reached and with
    [HTTPError] when it answers 4xx or 5xx; it never fails with a typed error
    such as [MissingRefreshToken]. *)
Theorem refresh_posted_without_refresh_token cfg env st :
  no_refresh_token st -> expired env st ->
  let rq := refresh_request cfg PNone in
  let run := get_valid_access_token cfg env st in
  sent (snd run) = (sent st ++ [rq])%list /\
  (forall e, fst run <> Raise (Typed e)) /\
  (network env (length (sent st)) rq = None -> fst run = Raise ConnectionError) /\
  (forall resp, network env (length (sent st)) rq = Some resp ->
                400 <= status_code resp < 600 ->
                fst run = Raise (HTTPError (status_code resp))).
Proof.
  intros Hno (e & He & Hle) rq run. subst rq run.
  pose proof (get_valid_access_token_untyped cfg env st) as Huntyped.
  rewrite (get_valid_access_token_expired cfg env st e He Hle) in *.
  pose proof (refresh_access_token_sent cfg env (tick st)) as Hsent.
  pose proof (refresh_access_token_run cfg env (tick st)) as Hrun.
  unfold stored_value in Hsent, Hrun. cbn [tick session sent] in Hsent, Hrun.
  unfold no_refresh_token, stored_value in Hno. rewrite Hno in Hsent, Hrun.
  cbv zeta in Hrun.
  destruct (refresh_access_token cfg env (tick st)) as [[[]|x] st3];
    cbn [fst snd] in *.
  - split; [done|]. split; [done|]. split.
    + intros Hnet. rewrite Hnet in Hrun. discriminate.
    + intros resp Hnet Hst. rewrite Hnet in Hrun.
      replace ((400 <=? status_code resp) && (status_code resp <? 600))
        with true in Hrun by lia. discriminate.
  - split; [done|]. split; [done|]. split.
    + intros Hnet. rewrite Hnet in Hrun. congruence.
    + intros resp Hnet Hst. rewrite Hnet in Hrun.
      replace ((400 <=? status_code resp) && (status_code resp <? 600))
        with true in Hrun by lia. congruence.
Qed.

Lemma refresh_posted_without_refresh_token_witness :
  sent (snd (get_valid_access_token demo_cfg rejecting lapsed))
    = [refresh_request demo_cfg PNone] /\
  fst (get_valid_access_token demo_cfg rejecting lapsed) = Raise (HTTPError 401).
Proof.
  assert (Hno : no_refresh_token lapsed) by reflexivity.
  assert (Hexp : expired rejecting lapsed).
  { exists 900. split; [reflexivity|]. vm_compute. discriminate. }
  destruct (refresh_posted_without_refresh_token demo_cfg rejecting lapsed Hno Hexp)
    as (Hsent & _ & _ & Hhttp).
  split; [exact Hsent|].
  apply (Hhttp (answer 401 None)); [reflexivity|]. cbn. lia.
Defined.


(** ** What a refresh overwrites *)

(** C3, as the specification states it, fails: a response without
    [refresh_token] erases the stored one. *)
Lemma refresh_erases_refresh_token : ~ refresh_preserves_omitted_fields.
Proof.
  intros H.
  destruct (H demo_cfg terse authorized
              (snd (refresh_access_token demo_cfg terse authorized))
              (answer 200 (Some (PDict [("access_token", PStr "B");
                                        ("expires_in", PInt 3600);
                                        ("companyId", PStr "C1")]))) _
              eq_refl eq_refl) as (Hr & _ & _).
  - vm_compute. reflexivity.
  - specialize (Hr eq_refl). vm_compute in Hr. discriminate.
Qed.

(** C3, amended.  For every successful refresh the stored refresh token
    becomes the response's [refresh_token] field, and null when the response
    has none; a non-empty stored [location_id] is left unchanged; the stored
    [company_id] becomes the response's [companyId]. *)
Theorem refresh_overwrites_refresh_token cfg env st st' :
  refresh_access_token cfg env st = (Ok tt, st') ->
  exists resp d company,
    network env (length (sent st))
      (refresh_request cfg (stored_value st "refresh_token")) = Some resp /\
    json resp = Some (PDict d) /\
    session st' !! "refresh_token"
      = Some (default PNone (dict_lookup "refresh_token" d)) /\
    (truthy (stored_value st "location_id") = true ->
     session st' !! "location_id" = session st !! "location_id") /\
    dict_lookup "companyId" d = Some company /\
    session st' !! "company_id" = Some company.
Proof.
  intros H.
  destruct (refresh_access_token_inv cfg env _ _ H)
    as (resp & d & access & secs & loc & company
        & Hnet & Hj & Ha & Hs & Hl & Hc & ->).
  exists resp, d, company. cbn [session]. unfold stored.
  split; [done|]. split; [done|]. split; [|split; [|split; [done|]]].
  - do 3 (rewrite lookup_insert_ne by done). apply lookup_insert_eq.
  - intros Ht. unfold tenant in Hl. rewrite Ht in Hl. injection Hl as <-.
    rewrite lookup_insert_ne by done. rewrite lookup_insert_eq.
    unfold stored_value in *. destruct (session st !! "location_id"); [done|].
    discriminate.
  - apply lookup_insert_eq.
Qed.

Lemma refresh_overwrites_refresh_token_witness :
  exists resp d company,
    network terse (length (sent authorized))
      (refresh_request demo_cfg (stored_value authorized "refresh_token")) = Some resp /\
    json resp = Some (PDict d) /\
    session (snd (refresh_access_token demo_cfg terse authorized)) !! "refresh_token"
      = Some (default PNone (dict_lookup "refresh_token" d)) /\
    (truthy (stored_value authorized "location_id") = true ->
     session (snd (refresh_access_token demo_cfg terse authorized)) !! "location_id"
       = session authorized !! "location_id") /\
    dict_lookup "companyId" d = Some company /\
    session (snd (refresh_access_token demo_cfg terse authorized)) !! "company_id"
      = Some company.
Proof.
  apply (refresh_overwrites_refresh_token demo_cfg terse authorized).
  vm_compute. reflexivity.
Defined.

(** C6, as the specification states it, fails: a tenant named by the refresh
    response does not replace the stored one. *)
Lemma refresh_ignores_new_location : ~ refresh_adopts_new_location.
Proof.
  intros H.
  specialize (H demo_cfg moving authorized
                (snd (refresh_access_token demo_cfg moving authorized))
                _ _ (PStr "L2") eq_refl eq_refl eq_refl).
  assert (Hrun : refresh_access_token demo_cfg moving authorized
                 = (Ok tt, snd (refresh_access_token demo_cfg moving authorized)))
    by (vm_compute; reflexivity).
  specialize (H Hrun). vm_compute in H. discriminate.
Qed.

(** C6, amended.  A non-empty stored [location_id] survives every refresh,
    however the refresh ends and whatever [locationId] its response carries;
    only when no non-empty [location_id] is stored does a successful refresh
    store the response's [locationId]. *)
Theorem refresh_keeps_stored_location cfg env st :
  (truthy (stored_value st "location_id") = true ->
   session (snd (refresh_access_token cfg env st)) !! "location_id"
     = session st !! "location_id") /\
  (truthy (stored_value st "location_id") = false ->
   forall st', refresh_access_token cfg env st = (Ok tt, st') ->
     exists resp d,
       network env (length (sent st))
         (refresh_request cfg (stored_value st "refresh_token")) = Some resp /\
       json resp = Some (PDict d) /\
       is_Some (dict_lookup "locationId" d) /\
       session st' !! "location_id" = dict_lookup "locationId" d).
Proof.
  split.
  - intros Ht.
    assert (Hs : session st !! "location_id" = Some (stored_value st "location_id")).
    { unfold stored_value in *. destruct (session st !! "location_id"); [done|].
      discriminate. }
    rewrite refresh_access_token_run. cbv zeta.
    repeat case_match; try done.
    rewrite Hs. by apply store_tokens_keeps_location.
  - intros Hf st' H.
    destruct (refresh_access_token_inv cfg env _ _ H)
      as (resp & d & access & secs & loc & company
          & Hnet & Hj & Ha & Hs & Hl & Hc & ->).
    exists resp, d. unfold tenant in Hl. rewrite Hf in Hl.
    split; [done|]. split; [done|]. split; [by rewrite Hl|].
    cbn [session]. unfold stored.
    rewrite lookup_insert_ne by done. by rewrite lookup_insert_eq.
Qed.

Lemma refresh_keeps_stored_location_witness :
  session (snd (refresh_access_token demo_cfg moving authorized)) !! "location_id"
    = Some (PStr "L1").
Proof.
  destruct (refresh_keeps_stored_location demo_cfg moving authorized) as [Hkeep _].
  rewrite Hkeep; vm_compute; reflexivity.
Defined.

(** ** The callback endpoint *)

(** C5, as the specification states it, fails: a token that lives no longer
    than the 30 second margin is expired the moment it is stored. *)
Lemma short_lived_token_refreshed_at_once : ~ exchange_then_get_needs_no_refresh.
Proof.
  intros H.
  destruct (H demo_cfg short_lived (plain_request [("code", "abc")]) (with_session [])
              (envelope (snd (callback demo_cfg short_lived
                                (plain_request [("code", "abc")]) (with_session []))) 0)
              (snd (callback demo_cfg short_lived
                      (plain_request [("code", "abc")]) (with_session []))))
    as (st2 & Hrun & Hsent).
  - repeat split; reflexivity.
  - vm_compute. reflexivity.
  - reflexivity.
  - apply (f_equal (fun p => length (sent (snd p)))) in Hrun.
    cbn [snd] in Hrun. rewrite Hsent in Hrun. vm_compute in Hrun. discriminate.
Qed.

(** C5, amended.  When the token response declares a lifetime above 30
    seconds (or none, which counts as 3600), a code exchange followed by
    [get_valid_access_token] before the clock moves returns the access token
    the exchange stored, taking one clock reading and sending nothing. *)
Theorem exchange_then_get_returns_stored_token cfg env rq st reply st1 resp d secs :
  exchanging rq st ->
  network env (length (sent st)) (exchange_request cfg (args_get rq "code"))
    = Some resp ->
  json resp = Some (PDict d) ->
  lifetime env d = Ok secs ->
  30 < secs ->
  callback cfg env rq st = (Ok reply, st1) ->
  clock env (ticks st1) = clock env (ticks st) ->
  exists access,
    dict_lookup "access_token" d = Some access /\
    stored_value st1 "access_token" = access /\
    get_valid_access_token cfg env st1 = (Ok access, tick st1).
Proof.
  intros Hex Hnet Hj Hs Hlt Hrun Hclock.
  rewrite (callback_exchanging cfg env _ _ Hex) in Hrun. cbv zeta in Hrun.
  rewrite Hnet in Hrun. destruct (_ && _); [done|]. rewrite Hj in Hrun.
  destruct (store_tokens env _ _ _) as [[[]|x] st0] eqn:Hstore; [|done].
  destruct (store_tokens_inv env _ _ _ _ Hstore)
    as (d' & access & secs' & loc & company & [= <-] & Ha & Hs' & Hl & Hc & ->).
  rewrite Hs in Hs'. injection Hs' as <-.
  rewrite build_response_run in Hrun.
  destruct (py_sub_int _ _); [|done]. injection Hrun as _ <-.
  cbn [logged session ticks sent] in *.
  exists access. split; [done|].
  assert (Hst : forall st0, stored_value (tick {| session := stored access
                   (default PNone (dict_lookup "refresh_token" d))
                   (clock env (ticks st) + secs - 30) loc company (session st);
                 ticks := S (ticks st); sent := st0 |}) "access_token" = access).
  { intros st0. unfold stored_value. cbn [tick session]. by rewrite stored_access. }
  split; [apply Hst|].
  rewrite (get_valid_access_token_fresh cfg env _ (clock env (ticks st) + secs - 30)).
  - by rewrite Hst.
  - cbn [tick session]. apply stored_expiry.
  - cbn [ticks tick] in *. lia.
Qed.

Lemma exchange_then_get_returns_stored_token_witness :
  exists access,
    dict_lookup "access_token"
      [("access_token", PStr "A"); ("refresh_token", PStr "R");
       ("expires_in", PInt 60); ("locationId", PStr "L1");
       ("companyId", PStr "C1")] = Some access /\
    stored_value (snd (callback demo_cfg issuing (plain_request [("code", "abc")])
                         (with_session []))) "access_token" = access /\
    get_valid_access_token demo_cfg issuing
      (snd (callback demo_cfg issuing (plain_request [("code", "abc")])
              (with_session [])))
    = (Ok access,
       tick (snd (callback demo_cfg issuing (plain_request [("code", "abc")])
                    (with_session [])))).
Proof.
  apply (exchange_then_get_returns_stored_token demo_cfg issuing
           (plain_request [("code", "abc")]) (with_session [])
           (envelope (snd (callback demo_cfg issuing
                             (plain_request [("code", "abc")]) (with_session []))) 30)
           _ (answer 200 (Some tokens60)) _ 60).
  - repeat split; reflexivity.
  - reflexivity.
  - reflexivity.
  - reflexivity.
  - lia.
  - vm_compute. reflexivity.
  - reflexivity.
Defined.

(** C9, as the specification states it, fails: the missing field surfaces as
    Python's own [KeyError]. *)
Lemma malformed_response_raises_key_error : ~ malformed_response_is_typed.
Proof.
  intros H.
  destruct (H demo_cfg hollow (plain_request [("code", "abc")]) (with_session [])
              (answer 200 (Some (PDict []))) []) as (st' & Hrun).
  - repeat split; reflexivity.
  - reflexivity.
  - cbn. lia.
  - reflexivity.
  - reflexivity.
  - apply (f_equal fst) in Hrun. vm_compute in Hrun. discriminate.
Qed.

(** C9, amended.  When the token endpoint answers a code exchange with a 2xx
    status and a JSON object that has no [access_token] field, the callback
    fails with [KeyError] on that field, raised by [store_tokens] before
    anything is written: the session is the one the request found, and only
    the exchange request has been sent. *)
Theorem malformed_response_key_error cfg env rq st resp d :
  exchanging rq st ->
  network env (length (sent st)) (exchange_request cfg (args_get rq "code"))
    = Some resp ->
  200 <= status_code resp < 300 ->
  json resp = Some (PDict d) ->
  dict_lookup "access_token" d = None ->
  callback cfg env rq st =
    (Raise (KeyError "access_token"),
     {| session := session st; ticks := ticks st;
        sent := (sent st ++ [exchange_request cfg (args_get rq "code")])%list |}).
Proof.
  intros Hex Hnet Hst Hj Hd.
  rewrite (callback_exchanging cfg env _ _ Hex). cbv zeta.
  rewrite Hnet.
  replace ((400 <=? status_code resp) && (status_code resp <? 600)) with false by lia.
  rewrite Hj. unfold store_tokens. mrun. by rewrite Hd.
Qed.

Lemma malformed_response_key_error_witness :
  callback demo_cfg hollow (plain_request [("code", "abc")]) (with_session []) =
    (Raise (KeyError "access_token"),
     {| session := session (with_session []); ticks := ticks (with_session []);
        sent := (sent (with_session [])
                 ++ [exchange_request demo_cfg
                       (args_get (plain_request [("code", "abc")]) "code")])%list |}).
Proof.
  apply (malformed_response_key_error demo_cfg hollow
           (plain_request [("code", "abc")]) (with_session [])
           (answer 200 (Some (PDict []))) []).
  - repeat split; reflexivity.
  - reflexivity.
  - cbn. lia.
  - reflexivity.
  - reflexivity.
Defined.




(** ** Search, then enrich *)

(** C8, as the specification states it, fails: a summary without an id gets
    neither a detail call nor an entry. *)
Lemma summary_without_id_skipped : ~ one_detail_call_per_summary.
Proof.
  intros H.
  destruct (H demo_cfg
              (conversing [summary "c1"; PDict [("type", PStr "TYPE_SMS")];
                           summary "c3"] 0)
              (plain_request []) current (PStr "A") (tick current)
              [("locationId", PStr "L1")]
              [summary "c1"; PDict [("type", PStr "TYPE_SMS")]; summary "c3"])
    as (detailed & st' & Hrun & Hlen & _).
  - split; [vm_compute; reflexivity|]. split; [reflexivity|].
    split; [vm_compute; reflexivity|].
    eexists _, _. repeat split; reflexivity.
  - repeat constructor; eexists; reflexivity.
  - intros n r. unfold conversing. cbn. repeat case_match; by eexists.
  - apply (f_equal (fun p => match fst p with
                             | Ok {| r_body := Json (PDict [_; (_, PList l)]) |} =>
                                 length l
                             | _ => 0%nat
                             end)) in Hrun.
    cbn [fst enriched jsonify r_body] in Hrun. rewrite Hlen in Hrun.
    vm_compute in Hrun. discriminate.
Qed.

Lemma answered_cons env headers n id ids resps :
  answered env headers n (id :: ids) resps ->
  exists resp resps',
    resps = resp :: resps' /\
    network env n (detail_request headers id) = Some resp /\
    answered env headers (S n) ids resps'.
Proof.
  intros [Hlen Hnet]. destruct resps as [|resp resps']; [done|].
  exists resp, resps'. split; [done|]. split.
  - specialize (Hnet 0%nat id resp eq_refl eq_refl).
    by rewrite Nat.add_0_r in Hnet.
  - split; [by injection Hlen|].
    intros i id' resp' Hi Hr. specialize (Hnet (S i) id' resp' Hi Hr).
    by rewrite Nat.add_succ_r in Hnet.
Qed.

(** The loop, when the server answers every detail call. *)
Lemma enrich_run env headers conversations resps :
  Forall is_object conversations ->
  forall acc st,
    answered env headers (length (sent st)) (identified conversations) resps ->
    enrich env headers conversations acc st =
      (Ok (acc ++ zip_with entry_for (identified conversations) resps)%list,
       {| session := session st; ticks := ticks st;
          sent := (sent st ++ map (detail_request headers)
                                  (identified conversations))%list |}).
Proof.
  intros Hobj. revert resps.
  induction Hobj as [|conv rest [d ->] _ IH]; intros resps acc st Hans.
  - cbn. rewrite !app_nil_r. by destruct st.
  - cbn [enrich]. unfold mbind at 1, M_bind. unfold lift at 1. cbn [py_get].
    unfold identified in *. cbn [map conversation_id List.filter] in *.
    destruct (truthy (default PNone (dict_lookup "id" d))) eqn:Ht; cbn [negb].
    + destruct (answered_cons _ _ _ _ _ _ Hans) as (resp & resps' & -> & Hnet & Hans').
      unfold mbind at 1, M_bind. unfold requests_get, send.
      fold (detail_request headers (default PNone (dict_lookup "id" d))).
      rewrite Hnet.
      assert (Hnext : forall entry,
        enrich env headers rest (acc ++ [entry])
          {| session := session st; ticks := ticks st;
             sent := sent st ++
                     [detail_request headers (default PNone (dict_lookup "id" d))] |}
        = (Ok (acc ++ entry ::
                 zip_with entry_for (List.filter truthy (map conversation_id rest))
                   resps')%list,
           {| session := session st; ticks := ticks st;
              sent := (sent st ++ detail_request headers
                                    (default PNone (dict_lookup "id" d))
                         :: map (detail_request headers)
                              (List.filter truthy (map conversation_id rest)))%list |})).
      { intros entry. rewrite (IH resps').
        - cbn [session ticks sent]. by rewrite <- !app_assoc.
        - cbn [sent]. rewrite length_app. cbn [length].
          by rewrite Nat.add_1_r. }
      cbn [zip_with map]. unfold entry_for.
      destruct (status_code resp =? 200); [destruct (json resp)|]; apply Hnext.
    + by apply IH.
Qed.

(** The handler runs the loop on the records its search found and returns
    what the loop collected. *)
Lemma get_conversations_with_details_run cfg env rq st token st1 params resp
    found conversations :
  get_valid_access_token cfg env st = (Ok token, st1) ->
  truthy token = true ->
  location_from_session "No locationId found in session or request."
    (to_dict (args rq)) st1 = (Ok (inr params), st1) ->
  network env (length (sent st1)) (conversations_search_request token params)
    = Some resp ->
  status_code resp = 200 ->
  json resp = Some (PDict found) ->
  dict_lookup "conversations" found = Some (PList conversations) ->
  get_conversations_with_details cfg env rq st =
    match enrich env [("Authorization", HBearer token);
                      ("Version", HLit "2021-04-15")] conversations []
            (logged st1 (conversations_search_request token params)) with
    | (Ok detailed, st2) =>
        (Ok (jsonify (PDict [("conversations_summary", PList conversations);
                             ("conversations_detailed", PList detailed)])), st2)
    | (Raise x, st2) => (Raise x, st2)
    end.
Proof.
  intros Hlookup Htoken Hloc Hnet Hstatus Hjson Hfound.
  unfold get_conversations_with_details. unfold mbind at 1, M_bind.
  rewrite Hlookup, Htoken. cbn [negb].
  unfold mbind at 1, M_bind. rewrite Hloc.
  unfold mbind at 1, M_bind. unfold requests_get at 1, send.
  fold (conversations_search_request token params). rewrite Hnet, Hstatus, Hjson.
  cbn [Z.eqb Pos.eqb negb].
  unfold mbind at 1, M_bind. unfold lift at 1. cbn [py_get]. rewrite Hfound.
  unfold mbind at 1, M_bind. unfold lift at 1.
  cbn [default from_option id py_iter].
  unfold mbind, M_bind, mret, M_ret, logged.
  by destruct (enrich env _ conversations [] _) as [[detailed|x] st2].
Qed.

(** C8, amended.  The conversation search-then-enrich operation issues, in
    order after the search, one detail call per summary record that carries a
    non-empty id, and skips the others.  As long as the server answers, each
    call contributes one entry in its position: the detail object on a
    parseable 200, an inline error object otherwise; the batch is not
    aborted and the handler answers 200 with the summaries and the entries.
    When the search returns three summaries with ids and the second detail
    call is answered 500, the result has exactly three detailed entries, the
    second an inline error object, the first and third full detail
    objects. *)
Theorem conversations_enriched_per_identified_summary
    cfg env rq st token st1 params conversations :
  search_found cfg env rq st token st1 params conversations ->
  Forall is_object conversations ->
  let headers := [("Authorization", HBearer token);
                  ("Version", HLit "2021-04-15")] in
  let st2 := logged st1 (conversations_search_request token params) in
  (forall resps,
     answered env headers (length (sent st2)) (identified conversations) resps ->
     get_conversations_with_details cfg env rq st =
       (Ok (enriched conversations
              (zip_with entry_for (identified conversations) resps)),
        {| session := session st1; ticks := ticks st1;
           sent := (sent st2 ++ map (detail_request headers)
                                    (identified conversations))%list |})) /\
  (forall c1 c2 c3 r1 r2 r3 d1 d3,
     conversations = [c1; c2; c3] ->
     Forall (fun c => truthy (conversation_id c) = true) [c1; c2; c3] ->
     answered env headers (length (sent st2))
       (map conversation_id [c1; c2; c3]) [r1; r2; r3] ->
     status_code r1 = 200 -> json r1 = Some d1 ->
     status_code r2 = 500 ->
     status_code r3 = 200 -> json r3 = Some d3 ->
     fst (get_conversations_with_details cfg env rq st)
     = Ok (enriched [c1; c2; c3]
             [d1; fetch_failure (conversation_id c2) r2; d3])).
Proof.
  intros (Hlookup & Htoken & Hloc & resp & found & Hnet & Hs & Hj & Hfound) Hobj
         headers st2.
  assert (Hrun : forall resps,
    answered env headers (length (sent st2)) (identified conversations) resps ->
    get_conversations_with_details cfg env rq st =
      (Ok (enriched conversations
             (zip_with entry_for (identified conversations) resps)),
       {| session := session st1; ticks := ticks st1;
          sent := (sent st2 ++ map (detail_request headers)
                                   (identified conversations))%list |})).
  { intros resps Hans.
    rewrite (get_conversations_with_details_run cfg env rq st token st1 params
               resp found conversations Hlookup Htoken Hloc Hnet Hs Hj Hfound).
    fold headers. fold st2.
    by rewrite (enrich_run env headers conversations resps Hobj [] st2 Hans). }
  split; [exact Hrun|].
  intros c1 c2 c3 r1 r2 r3 d1 d3 -> Hid Hans H1 J1 H2 H3 J3.
  assert (Hids : identified [c1; c2; c3] = map conversation_id [c1; c2; c3]).
  { unfold identified. cbn [map List.filter].
    inversion Hid as [|? ? T1 Hid']; subst.
    inversion Hid' as [|? ? T2 Hid'']; subst.
    inversion Hid'' as [|? ? T3 _]; subst.
    by rewrite T1, T2, T3. }
  rewrite (Hrun [r1; r2; r3]) by (by rewrite Hids).
  rewrite Hids. cbn [fst map zip_with]. unfold entry_for.
  by rewrite H1, J1, H2, H3, J3.
Qed.

Lemma conversations_enriched_per_identified_summary_witness :
  fst (get_conversations_with_details demo_cfg
         (conversing [summary "c1"; summary "c2"; summary "c3"] 2)
         (plain_request []) current)
  = Ok (enriched [summary "c1"; summary "c2"; summary "c3"]
          [detail "c1"; fetch_failure (PStr "c2") (answer 500 None); detail "c3"]).
Proof.
  destruct (conversations_enriched_per_identified_summary demo_cfg
              (conversing [summary "c1"; summary "c2"; summary "c3"] 2)
              (plain_request []) current (PStr "A") (tick current)
              [("locationId", PStr "L1")]
              [summary "c1"; summary "c2"; summary "c3"]) as [_ H].
  - split; [vm_compute; reflexivity|]. split; [reflexivity|].
    split; [vm_compute; reflexivity|].
    eexists _, _. repeat split; reflexivity.
  - repeat constructor; eexists; reflexivity.
  - apply (H (summary "c1") (summary "c2") (summary "c3")
             (answer 200 (Some (detail "c1"))) (answer 500 None)
             (answer 200 (Some (detail "c3")))); try reflexivity.
    + repeat constructor.
    + split; [reflexivity|].
      intros [|[|[|i]]] id resp Hi Hr; cbn in Hi, Hr; simplify_eq; reflexivity.
Defined.

(** ** Which token goes upstream *)

(** C1, as the specification states it, fails: a bearer token in the request
    headers is not the one sent upstream. *)
Lemma header_token_not_used : ~ explicit_token_bypasses_session.
Proof.
  intros H.
  specialize (H demo_cfg issuing (bearing "H") current "H" eq_refl).
  vm_compute in H. discriminate.
Qed.

Lemma sent_with_token_one token before r :
  header_lookup "Authorization" (req_headers r) = Some (HBearer token) ->
  sent_with_token token before (before ++ [r]).
Proof. intros Hr. exists [r]. split; [done|]. by constructor. Qed.

Lemma sent_with_token_none token before : sent_with_token token before before.
Proof. exists []. split; [by rewrite app_nil_r|]. constructor. Qed.

Lemma sent_with_token_trans token a b c :
  sent_with_token token a b -> sent_with_token token b c ->
  sent_with_token token a c.
Proof.
  intros (n1 & -> & F1) (n2 & -> & F2). exists (n1 ++ n2)%list.
  split; [by rewrite app_assoc|]. by apply Forall_app.
Qed.

(** Every request of the loop carries the headers the loop was given. *)
Lemma enrich_sent env token version conversations :
  forall acc st,
    sent_with_token token (sent st)
      (sent (snd (enrich env [("Authorization", HBearer token); version]
                    conversations acc st))).
Proof.
  induction conversations as [|conv rest IH]; intros acc st.
  - apply sent_with_token_none.
  - cbn [enrich]. unfold mbind at 1, M_bind. unfold lift at 1.
    destruct (py_get conv "id" PNone) as [id|x]; [|apply sent_with_token_none].
    destruct (truthy id); cbn [negb]; [|apply IH].
    unfold mbind at 1, M_bind. unfold requests_get, send.
    destruct (network env _ _) as [resp|]; cbn [snd sent].
    + match goal with
      | |- context [(sent st ++ [?r])%list] =>
          apply (sent_with_token_trans _ _ (sent st ++ [r])%list);
            [by apply sent_with_token_one|]
      end.
      destruct (status_code resp =? 200); [destruct (json resp)|];
        match goal with |- context [enrich _ _ _ ?a ?s] => apply (IH a s) end.
    + by apply sent_with_token_one.
Qed.

Ltac enter_handler handler cfg env st :=
  let Hl := fresh "Hlookup" in
  let Ht := fresh "Htruthy" in
  destruct (get_valid_access_token cfg env st) as [[token|x] st1] eqn:Hl;
  [destruct (truthy token) eqn:Ht|];
  unfold handler; unfold mbind at 1, M_bind; rewrite Hl;
  [rewrite Ht; cbn [negb] | rewrite Ht; cbn [negb]; done | done].

Lemma location_from_session_quiet msg params st :
  snd (location_from_session msg params st) = st.
Proof.
  unfold location_from_session.
  destruct (has_key "locationId" params); cbn [negb]; [done|].
  unfold mbind, M_bind, session_get. by destruct (truthy _).
Qed.

Lemma location_from_session_total msg params st :
  exists located, location_from_session msg params st = (Ok located, st).
Proof.
  unfold location_from_session.
  destruct (has_key "locationId" params); cbn [negb]; [by eexists|].
  unfold mbind, M_bind, session_get. destruct (truthy _); by eexists.
Qed.

Lemma bears_ret token {A} (a : A) : bears token (mret a).
Proof. intros st. apply sent_with_token_none. Qed.

Lemma bears_throw token {A} e : bears token (throw (A := A) e).
Proof. intros st. apply sent_with_token_none. Qed.

Lemma bears_lift token {A} (r : result A) : bears token (lift r).
Proof. intros st. apply sent_with_token_none. Qed.

Lemma bears_session_get token k : bears token (session_get k).
Proof. intros st. apply sent_with_token_none. Qed.

Lemma bears_bind token {A B} (m : M A) (f : A -> M B) :
  bears token m -> (forall a, bears token (f a)) -> bears token (m ≫= f).
Proof.
  intros Hm Hf st. unfold mbind, M_bind. specialize (Hm st).
  destruct (m st) as [[a|x] st1]; cbn [snd] in *; [|done].
  eapply sent_with_token_trans; [exact Hm|apply Hf].
Qed.

Lemma bears_get token env url others params :
  bears token (requests_get env url (("Authorization", HBearer token) :: others)
                 params).
Proof.
  intros st. unfold requests_get, send.
  destruct (network env _ _); by apply sent_with_token_one.
Qed.

Lemma bears_post token env url others j :
  bears token (requests_post_json env url
                 (("Authorization", HBearer token) :: others) j).
Proof.
  intros st. unfold requests_post_json, send.
  destruct (network env _ _); by apply sent_with_token_one.
Qed.

Lemma bears_enrich token env version conversations acc :
  bears token (enrich env [("Authorization", HBearer token); version]
                 conversations acc).
Proof. intros st. apply enrich_sent. Qed.

(** Breaks a handler's body down to its requests. *)
Ltac bears_steps :=
  repeat first
    [ apply bears_ret | apply bears_throw | apply bears_lift
    | apply bears_session_get | apply bears_get | apply bears_post
    | apply bears_enrich
    | apply bears_bind; [|intros ?]
    | progress unfold resp_json, get_json, location_from_session,
        param_from_session
    | match goal with
      | |- bears _ (if ?b then _ else _) => destruct b
      | |- bears _ (match ?x with _ => _ end) => destruct x
      | |- bears _ (let _ := _ in _) => cbv zeta
      end ].

(** A handler that looks the token up, refuses an empty one and otherwise
    sends only requests that carry it. *)
Lemma token_from_lookup cfg env {A} (refusal : A) (rest : pyval -> M A) st :
  (forall token, bears token (rest token)) ->
  match get_valid_access_token cfg env st with
  | (Raise x, st1) =>
      (get_valid_access_token cfg env
         ≫= fun token => if negb (truthy token) then mret refusal else rest token) st
      = (Raise x, st1)
  | (Ok token, st1) =>
      if truthy token
      then sent_with_token token (sent st1)
             (sent (snd ((get_valid_access_token cfg env
                            ≫= fun token => if negb (truthy token)
                                            then mret refusal else rest token) st)))
      else (get_valid_access_token cfg env
              ≫= fun token => if negb (truthy token) then mret refusal
                              else rest token) st
           = (Ok refusal, st1)
  end.
Proof.
  intros Hrest. unfold mbind, M_bind.
  destruct (get_valid_access_token cfg env st) as [[token|x] st1]; [|done].
  destruct (truthy token); cbn [negb]; [apply Hrest|done].
Qed.

(** C1, amended.  Every proxy handler ([search_locations],
    [search_location_and_get_campaigns], [get_conversations_with_details],
    [get_opportunities], [get_pipelines], [get_campaigns], [get_users],
    [search_contacts] and [profile]) takes the access token for its upstream
    calls from [get_valid_access_token] against the session: the request's
    headers are never read, the [access_token] query parameter is not a
    token source, and each request the handler sends to the API after the
    session lookup carries the session's token.  When the lookup raises the
    handler raises the same, and when it yields an empty token the handler
    calls nothing and answers 401, [profile] alone answering with a redirect
    to the index page. *)
Theorem handlers_use_session_token cfg env :
  session_token_only cfg env (search_locations cfg env) /\
  session_token_only cfg env (search_location_and_get_campaigns cfg env) /\
  session_token_only cfg env (get_conversations_with_details cfg env) /\
  session_token_only cfg env (get_opportunities cfg env) /\
  session_token_only cfg env (get_pipelines cfg env) /\
  session_token_only cfg env (get_campaigns cfg env) /\
  session_token_only cfg env (get_users cfg env) /\
  session_token_only cfg env (search_contacts cfg env) /\
  profile_token_from_session cfg env.
Proof.
  unfold session_token_only.
  repeat match goal with |- _ /\ _ => split end.
  1-8: intros rq st; split; [reflexivity|];
    unfold search_locations, search_location_and_get_campaigns,
      get_conversations_with_details, get_opportunities, get_pipelines,
      get_campaigns, get_users, search_contacts;
    apply token_from_lookup; intros token; bears_steps.
  intros st.
  destruct (get_valid_access_token cfg env st) as [[token|x] st1] eqn:Hlookup;
    [destruct (truthy token) eqn:Htoken|];
    unfold profile; unfold mbind at 1, M_bind; rewrite Hlookup; [| |done];
    unfold mbind at 1, M_bind; unfold session_get at 1; rewrite Htoken;
    cbn [negb orb]; [|done].
  destruct (truthy (default PNone (session st1 !! "location_id"))); cbn [negb].
  - match goal with
    | |- sent_with_token _ _ (sent (snd (?m st1))) =>
        assert (Hbody : bears token m) by bears_steps; apply Hbody
    end.
  - apply sent_with_token_none.
Qed.

(** ** Which tenant goes upstream *)

(** C7, as the specification states it, fails: [search_contacts] does not
    look at the query string, so the body's tenant goes upstream. *)
Lemma query_tenant_ignored_by_search_contacts : ~ tenant_resolved_in_three_tiers.
Proof.
  intros H. destruct (H demo_cfg issuing) as [_ Hc].
  specialize (Hc torn current (PStr "A") (tick current)
                (contacts_request (PStr "A") (PDict [("locationId", PStr "B")]))).
  assert (Hlookup : get_valid_access_token demo_cfg issuing current
                    = (Ok (PStr "A"), tick current)).
  { apply (get_valid_access_token_fresh demo_cfg issuing current 2000);
      [reflexivity|]. vm_compute. reflexivity. }
  specialize (Hc Hlookup).
  assert (Hsent : sent (snd (search_contacts demo_cfg issuing torn current))
                  = (sent (tick current)
                     ++ [contacts_request (PStr "A")
                           (PDict [("locationId", PStr "B")])])%list)
    by (vm_compute; reflexivity).
  specialize (Hc Hsent). vm_compute in Hc. discriminate.
Qed.

Lemma dict_lookup_filter_ne k k' (d : list (string * pyval)) :
  k <> k' ->
  dict_lookup k (filter (fun kv => negb (String.eqb (fst kv) k')) d)
  = dict_lookup k d.
Proof.
  intros Hne. induction d as [|[k0 v] d IH]; [done|].
  rewrite filter_cons. cbn [fst dict_lookup].
  destruct (String.eqb_spec k0 k') as [->|Hk0].
  - cbn [negb]. rewrite decide_False by (cbn; tauto).
    destruct (String.eqb_spec k k'); [done|]. exact IH.
  - cbn [negb]. rewrite decide_True by done. cbn [dict_lookup].
    by rewrite IH.
Qed.

Lemma dict_lookup_to_dict k l :
  dict_lookup k (to_dict l) = PStr <$> first_value k l.
Proof.
  induction l as [|[k0 v] l IH]; [done|].
  cbn [to_dict dict_lookup first_value].
  destruct (String.eqb_spec k k0) as [->|Hne]; [done|].
  by rewrite dict_lookup_filter_ne.
Qed.

Lemma dict_lookup_store k v d : dict_lookup k (dict_store k v d) = Some v.
Proof.
  induction d as [|[k0 v0] d IH]; cbn [dict_store dict_lookup].
  - by rewrite String.eqb_refl.
  - destruct (String.eqb_spec k k0) as [->|Hne]; cbn [dict_lookup].
    + by rewrite String.eqb_refl.
    + destruct (String.eqb_spec k k0); [done|]. exact IH.
Qed.

(** C7, amended.  Each handler resolves the tenant in two tiers.
    [get_campaigns] sends the [locationId] query parameter whenever the query
    string has that key, and the session's [location_id] otherwise;
    [search_contacts] sends the [locationId] field of the JSON body when it
    is non-empty, and the session's [location_id] otherwise; neither looks at
    the other's first tier.  When the session's value is needed and empty,
    the handler answers 400 with an error that names [locationId] and calls
    nothing. *)
Theorem tenant_resolved_in_two_tiers cfg env rq st token st1 :
  get_valid_access_token cfg env st = (Ok token, st1) ->
  truthy token = true ->
  let kept := stored_value st1 "location_id" in
  (forall q, first_value "locationId" (args rq) = Some q ->
     sent (snd (get_campaigns cfg env rq st))
       = (sent st1 ++ [campaigns_request token (to_dict (args rq))])%list /\
     tenant_sent (campaigns_request token (to_dict (args rq))) = Some (PStr q)) /\
  (first_value "locationId" (args rq) = None ->
     if truthy kept then
       exists r, sent (snd (get_campaigns cfg env rq st)) = (sent st1 ++ [r])%list /\
                 tenant_sent r = Some kept
     else get_campaigns cfg env rq st
          = (Ok (error_reply "No locationId found in session or request." 400), st1)) /\
  (forall d, body rq = Some (PDict d) ->
     let given := default PNone (dict_lookup "locationId" d) in
     if truthy given then
       sent (snd (search_contacts cfg env rq st))
         = (sent st1 ++ [contacts_request token (PDict d)])%list /\
       tenant_sent (contacts_request token (PDict d)) = Some given
     else if truthy kept then
       exists r, sent (snd (search_contacts cfg env rq st)) = (sent st1 ++ [r])%list /\
                 tenant_sent r = Some kept
     else search_contacts cfg env rq st
          = (Ok (error_reply "No locationId found in request or session." 400), st1)).
Proof.
  intros Hlookup Htoken kept. subst kept. split; [|split].
  - intros q Hq. unfold get_campaigns. unfold mbind at 1, M_bind.
    rewrite Hlookup, Htoken. cbn [negb].
    unfold location_from_session, has_key.
    rewrite dict_lookup_to_dict, Hq. cbn [fmap option_fmap option_map].
    rewrite bool_decide_eq_true_2 by (by eexists). cbn [negb].
    unfold mbind, M_bind, mret, M_ret, requests_get, send.
    fold (campaigns_request token (to_dict (args rq))).
    split; [by destruct (network env _ _)|].
    unfold tenant_sent. cbn. by rewrite dict_lookup_to_dict, Hq.
  - intros Hq.
    destruct (truthy (stored_value st1 "location_id")) eqn:Hk;
      unfold get_campaigns; unfold mbind at 1, M_bind;
      rewrite Hlookup, Htoken; cbn [negb];
      unfold location_from_session, has_key;
      rewrite dict_lookup_to_dict, Hq; cbn [fmap option_fmap option_map];
      rewrite bool_decide_eq_false_2 by (by intros [? ?]); cbn [negb];
      unfold mbind, M_bind, mret, M_ret, session_get, requests_get, send;
      cbv beta iota; fold (stored_value st1 "location_id"); rewrite Hk;
      cbn [negb]; [|done].
    eexists. split; [by destruct (network env _ _)|].
    unfold tenant_sent. cbn [req_json req_params]. apply dict_lookup_store.
  - intros d Hd given. subst given.
    assert (Hbody : (if truthy (PDict d) then PDict d else PDict []) = PDict d)
      by (by destruct d).
    destruct (truthy (default PNone (dict_lookup "locationId" d))) eqn:Hg;
      [|destruct (truthy (stored_value st1 "location_id")) eqn:Hk];
      unfold search_contacts; unfold mbind at 1, M_bind;
      rewrite Hlookup, Htoken; cbn [negb];
      unfold get_json; rewrite Hd;
      unfold mbind, M_bind, mret, M_ret, lift, session_get, requests_post_json, send;
      cbv beta iota zeta; rewrite Hbody; cbn [py_get py_setitem];
      cbv beta iota; rewrite Hg; cbn [negb];
      cbv beta iota; fold (stored_value st1 "location_id");
      rewrite ?Hk; cbn [negb py_setitem]; cbv beta iota.
    + fold (contacts_request token (PDict d)).
      split; [by destruct (network env _ _)|].
      unfold tenant_sent. cbn [contacts_request req_json].
      destruct (dict_lookup "locationId" d); [done|discriminate].
    + eexists. split; [by destruct (network env _ _)|].
      unfold tenant_sent. cbn [req_json]. apply dict_lookup_store.
    + done.
Qed.

Lemma tenant_resolved_in_two_tiers_witness :
  sent (snd (search_contacts demo_cfg issuing torn current))
    = (sent (tick current)
       ++ [contacts_request (PStr "A") (PDict [("locationId", PStr "B")])])%list /\
  tenant_sent (contacts_request (PStr "A") (PDict [("locationId", PStr "B")]))
    = Some (PStr "B").
Proof.
  assert (Hlookup : get_valid_access_token demo_cfg issuing current
                    = (Ok (PStr "A"), tick current)) by (vm_compute; reflexivity).
  destruct (tenant_resolved_in_two_tiers demo_cfg issuing torn current
              (PStr "A") (tick current) Hlookup eq_refl) as (_ & _ & Hbody).
  exact (Hbody [("locationId", PStr "B")] eq_refl).
Defined.

(** * Further properties of the token store *)

(** [store_tokens] is not atomic: a token response that has everything but
    [companyId] makes it raise [KeyError] on that key after the access token,
    the refresh token, the expiry and the tenant have been replaced; only
    [company_id] keeps its old value. *)
Theorem store_tokens_partial_write env d location_id st access secs loc :
  dict_lookup "access_token" d = Some access ->
  lifetime env d = Ok secs ->
  tenant location_id d = Some loc ->
  dict_lookup "companyId" d = None ->
  exists st',
    store_tokens env (PDict d) location_id st = (Raise (KeyError "companyId"), st') /\
    session st' !! "access_token" = Some access /\
    session st' !! "refresh_token"
      = Some (default PNone (dict_lookup "refresh_token" d)) /\
    session st' !! "token_expires_at"
      = Some (PInt (clock env (ticks st) + secs - 30)) /\
    session st' !! "location_id" = Some loc /\
    session st' !! "company_id" = session st !! "company_id".
Proof.
  unfold lifetime, tenant, store_tokens. intros Ha Hs Hl Hc. mrun.
  rewrite Ha. mred. rewrite Hs. mred.
  destruct (truthy location_id); mred;
    [injection Hl as <-|rewrite Hl]; rewrite Hc; eexists; (split; [reflexivity|]);
    cbn [session];
    repeat split;
    repeat (rewrite lookup_insert_eq || (rewrite lookup_insert_ne by done)); done.
Qed.

Lemma store_tokens_partial_write_witness :
  exists st',
    store_tokens terse (PDict [("access_token", PStr "B")]) (PStr "L1") authorized
      = (Raise (KeyError "companyId"), st') /\
    session st' !! "access_token" = Some (PStr "B") /\
    session st' !! "refresh_token"
      = Some (default PNone (dict_lookup "refresh_token" [("access_token", PStr "B")])) /\
    session st' !! "token_expires_at"
      = Some (PInt (clock terse (ticks authorized) + 3600 - 30)) /\
    session st' !! "location_id" = Some (PStr "L1") /\
    session st' !! "company_id" = session authorized !! "company_id".
Proof.
  apply (store_tokens_partial_write terse [("access_token", PStr "B")] (PStr "L1")
           authorized (PStr "B") 3600 (PStr "L1")); reflexivity.
Defined.

(** A refresh that fails before the response is stored leaves the session as
    it was: when the token endpoint cannot be reached, answers 4xx or 5xx, or
    answers with a body that is not JSON, [refresh_access_token] raises and no
    session key has changed. *)
Theorem failed_refresh_keeps_session cfg env st :
  let rq := refresh_request cfg (stored_value st "refresh_token") in
  (network env (length (sent st)) rq = None \/
   exists resp, network env (length (sent st)) rq = Some resp /\
                (400 <= status_code resp < 600 \/ json resp = None)) ->
  (exists e, fst (refresh_access_token cfg env st) = Raise e) /\
  session (snd (refresh_access_token cfg env st)) = session st.
Proof.
  intros rq H. rewrite refresh_access_token_run. fold rq. cbv zeta.
  destruct H as [-> | (resp & -> & [Hst | Hj])].
  - split; [by eexists|done].
  - replace ((400 <=? status_code resp) && (status_code resp <? 600)) with true by lia.
    split; [by eexists|done].
  - destruct (_ && _); [split; [by eexists|done]|].
    rewrite Hj. split; [by eexists|done].
Qed.

Lemma failed_refresh_keeps_session_witness :
  (exists e, fst (refresh_access_token demo_cfg rejecting authorized) = Raise e) /\
  session (snd (refresh_access_token demo_cfg rejecting authorized))
    = session authorized.
Proof.
  apply (failed_refresh_keeps_session demo_cfg rejecting authorized).
  right. exists (answer 401 None). split; [reflexivity|]. left. cbn. lia.
Defined.

(** One call of [get_valid_access_token] sends at most one request, and that
    request is the refresh of the stored refresh token. *)
Theorem lookup_sends_at_most_one_refresh cfg env st :
  sent (snd (get_valid_access_token cfg env st)) = sent st \/
  sent (snd (get_valid_access_token cfg env st))
    = (sent st ++ [refresh_request cfg (stored_value st "refresh_token")])%list.
Proof.
  unfold get_valid_access_token, mbind, M_bind.
  pose proof (token_expired_sent env st) as Hs.
  pose proof (token_expired_session env st) as Hk.
  destruct (token_expired env st) as [[[]|x] st1]; cbn [snd] in *.
  - right. pose proof (refresh_access_token_sent cfg env st1) as Hr.
    unfold stored_value in *. rewrite Hk, Hs in Hr.
    by destruct (refresh_access_token cfg env st1) as [[[]|x] st2].
  - by left.
  - by left.
Qed.

(** With a dated record the refresh is posted exactly when the clock has
    reached the stored expiry: one second before it nothing is sent, at the
    expiry itself the token already counts as expired. *)
Theorem refresh_exactly_when_expired cfg env st e :
  session st !! "token_expires_at" = Some (PInt e) ->
  (sent (snd (get_valid_access_token cfg env st)) = sent st
   <-> clock env (ticks st) < e).
Proof.
  intros He. split.
  - intros Hsent. destruct (Z.lt_ge_cases (clock env (ticks st)) e) as [|Hge]; [done|].
    rewrite (get_valid_access_token_expired cfg env st e He Hge) in Hsent.
    pose proof (refresh_access_token_sent cfg env (tick st)) as Hr.
    destruct (refresh_access_token cfg env (tick st)) as [[[]|x] st2];
      cbn [snd tick sent] in *; rewrite Hr in Hsent;
      apply (f_equal length) in Hsent; rewrite length_app in Hsent;
      cbn in Hsent; lia.
  - intros Hlt. by rewrite (get_valid_access_token_fresh cfg env st e He Hlt).
Qed.

Lemma refresh_exactly_when_expired_witness :
  sent (snd (get_valid_access_token demo_cfg issuing current)) = sent current
  <-> clock issuing (ticks current) < 2000.
Proof.
  apply (refresh_exactly_when_expired demo_cfg issuing current 2000).
  reflexivity.
Defined.

(** An expired record with a refresh token the endpoint accepts: the lookup
    posts one refresh and returns the access token of the response, stored
    with the expiry computed from the clock reading taken after the call. *)
Theorem expired_lookup_returns_new_token cfg env st e resp d access secs loc company :
  session st !! "token_expires_at" = Some (PInt e) ->
  e <= clock env (ticks st) ->
  network env (length (sent st))
    (refresh_request cfg (stored_value st "refresh_token")) = Some resp ->
  (400 <=? status_code resp) && (status_code resp <? 600) = false ->
  json resp = Some (PDict d) ->
  dict_lookup "access_token" d = Some access ->
  lifetime env d = Ok secs ->
  tenant (stored_value st "location_id") d = Some loc ->
  dict_lookup "companyId" d = Some company ->
  exists st',
    get_valid_access_token cfg env st = (Ok access, st') /\
    sent st' = (sent st ++ [refresh_request cfg (stored_value st "refresh_token")])%list /\
    session st' !! "token_expires_at"
      = Some (PInt (clock env (S (ticks st)) + secs - 30)).
Proof.
  intros He Hle Hnet Hst Hj Ha Hs Hl Hc.
  rewrite (get_valid_access_token_expired cfg env st e He Hle).
  rewrite refresh_access_token_run. cbv zeta.
  unfold stored_value in *. cbn [tick session sent ticks] in *.
  rewrite Hnet, Hst, Hj.
  rewrite (store_tokens_ok env d _ _ access secs loc company Ha Hs Hl Hc).
  eexists. split; [|split].
  - unfold stored_value. cbn [session]. by rewrite stored_access.
  - reflexivity.
  - cbn [session logged ticks]. apply stored_expiry.
Qed.

Lemma expired_lookup_returns_new_token_witness :
  exists st',
    get_valid_access_token demo_cfg issuing authorized = (Ok (PStr "A"), st') /\
    sent st' = (sent authorized
                ++ [refresh_request demo_cfg (stored_value authorized "refresh_token")])%list /\
    session st' !! "token_expires_at"
      = Some (PInt (clock issuing (S (ticks authorized)) + 60 - 30)).
Proof.
  apply (expired_lookup_returns_new_token demo_cfg issuing authorized 900
           (answer 200 (Some tokens60))
           [("access_token", PStr "A"); ("refresh_token", PStr "R");
            ("expires_in", PInt 60); ("locationId", PStr "L1");
            ("companyId", PStr "C1")]
           (PStr "A") 60 (PStr "L1") (PStr "C1"));
    try reflexivity.
  vm_compute. discriminate.
Defined.

(** * Further properties of the callback endpoint *)

Lemma build_response_ok env st reply st' :
  build_response env st = (Ok reply, st') ->
  exists n, 0 <= n /\ reply = envelope st' n /\ session st' = session st
            /\ sent st' = sent st.
Proof.
  rewrite build_response_run. destruct (py_sub_int _ _) as [remaining|]; [|done].
  intros [= <- <-]. exists (Z.max remaining 0). split; [lia|]. by repeat split.
Qed.

Lemma callback_without_code cfg env rq st :
  truthy (args_get rq "error") = false ->
  truthy (stored_value st "access_token") = false ->
  truthy (args_get rq "code") = false ->
  callback cfg env rq st
  = (Ok {| r_body := Text "No code provided and no valid session exists.";
           r_status := 400 |}, st).
Proof.
  intros He Ha Hc. unfold callback. rewrite He.
  unfold mbind, M_bind, session_get. fold (stored_value st "access_token").
  by rewrite Ha, Hc.
Qed.

(** The callback turns a request down with a 400, sending nothing and
    leaving the session alone, when the request carries a non-empty [error]
    parameter (whatever else it carries and whatever the session holds), and
    when there is neither an access token in the session nor a [code]. *)
Theorem callback_rejections cfg env rq st :
  (forall e, first_value "error" (args rq) = Some e -> e <> "" ->
     callback cfg env rq st
     = (Ok {| r_body := Text ("Error during authorization: " +:+ e);
              r_status := 400 |}, st)) /\
  (truthy (args_get rq "error") = false ->
   truthy (stored_value st "access_token") = false ->
   truthy (args_get rq "code") = false ->
   callback cfg env rq st
   = (Ok {| r_body := Text "No code provided and no valid session exists.";
            r_status := 400 |}, st)).
Proof.
  split.
  - intros e He Hne. unfold callback, args_get. rewrite He. cbn [truthy].
    apply String.eqb_neq in Hne. by rewrite Hne.
  - apply callback_without_code.
Qed.

Lemma callback_rejections_witness :
  callback demo_cfg issuing
    (plain_request [("error", "access_denied"); ("code", "abc")]) current
  = (Ok {| r_body := Text ("Error during authorization: " +:+ "access_denied");
           r_status := 400 |}, current).
Proof.
  destruct (callback_rejections demo_cfg issuing
              (plain_request [("error", "access_denied"); ("code", "abc")]) current)
    as [Herror _].
  apply Herror; [reflexivity|discriminate].
Defined.

(** A code exchange stores the tenant of the redirect: a non-empty
    [locationId] query parameter of the callback is what ends up in the
    session, whatever [locationId] the token response names; the response's
    value is stored only when the parameter is missing or empty. *)
Theorem exchange_prefers_redirect_location cfg env rq st reply st' :
  exchanging rq st ->
  callback cfg env rq st = (Ok reply, st') ->
  exists resp d loc,
    network env (length (sent st)) (exchange_request cfg (args_get rq "code"))
      = Some resp /\
    json resp = Some (PDict d) /\
    session st' !! "location_id" = Some loc /\
    (forall q, first_value "locationId" (args rq) = Some q -> q <> "" ->
               loc = PStr q) /\
    (truthy (args_get rq "locationId") = false ->
     dict_lookup "locationId" d = Some loc).
Proof.
  intros Hex Hrun.
  destruct (callback_exchanging_inv cfg env _ _ _ _ Hex Hrun)
    as (resp & d & access & secs & loc & company
        & Hnet & Hj & Ha & Hs & Hl & Hc & ->).
  exists resp, d, loc. split; [done|]. split; [done|]. split; [|split].
  - cbn [tick session]. apply stored_location.
  - intros q Hq Hne. unfold tenant, args_get in Hl. rewrite Hq in Hl.
    cbn [truthy] in Hl. apply String.eqb_neq in Hne. rewrite Hne in Hl.
    cbn [negb] in Hl. congruence.
  - intros Hf. unfold tenant in Hl. by rewrite Hf in Hl.
Qed.

Lemma exchange_prefers_redirect_location_witness :
  exists resp d loc,
    network issuing (length (sent (with_session [])))
      (exchange_request demo_cfg
         (args_get (plain_request [("code", "abc"); ("locationId", "L9")]) "code"))
      = Some resp /\
    json resp = Some (PDict d) /\
    session (snd (callback demo_cfg issuing
                    (plain_request [("code", "abc"); ("locationId", "L9")])
                    (with_session []))) !! "location_id" = Some loc /\
    (forall q, first_value "locationId"
                 (args (plain_request [("code", "abc"); ("locationId", "L9")]))
               = Some q -> q <> "" -> loc = PStr q) /\
    (truthy (args_get (plain_request [("code", "abc"); ("locationId", "L9")])
               "locationId") = false ->
     dict_lookup "locationId" d = Some loc).
Proof.
  apply (exchange_prefers_redirect_location demo_cfg issuing
           (plain_request [("code", "abc"); ("locationId", "L9")]) (with_session [])
           (envelope (snd (callback demo_cfg issuing
                             (plain_request [("code", "abc"); ("locationId", "L9")])
                             (with_session []))) 30)).
  - repeat split; reflexivity.
  - vm_compute. reflexivity.
Defined.

(** Whenever the callback answers 200, the answer is the credential envelope
    of the session it leaves behind, and the [expires_in] it reports is never
    negative. *)
Theorem callback_ok_is_envelope cfg env rq st reply st' :
  callback cfg env rq st = (Ok reply, st') ->
  r_status reply = 200 ->
  exists n, 0 <= n /\ reply = envelope st' n.
Proof.
  intros Hrun Hok.
  destruct (truthy (args_get rq "error")) eqn:He.
  { unfold callback in Hrun. rewrite He in Hrun.
    injection Hrun as <- _. discriminate. }
  destruct (truthy (stored_value st "access_token")) eqn:Ha.
  - rewrite (callback_authorized cfg env rq st He Ha) in Hrun.
    destruct (token_expired env st) as [[[]|x] st1]; [| |done].
    + destruct (refresh_access_token cfg env st1) as [[[]|x] st2]; [|done].
      destruct (build_response_ok _ _ _ _ Hrun) as (n & Hn & -> & _).
      by exists n.
    + destruct (build_response_ok _ _ _ _ Hrun) as (n & Hn & -> & _).
      by exists n.
  - destruct (truthy (args_get rq "code")) eqn:Hc.
    + assert (Hex : exchanging rq st) by done.
      rewrite (callback_exchanging cfg env _ _ Hex) in Hrun. cbv zeta in Hrun.
      destruct (network env _ _) as [resp|]; [|done].
      destruct (_ && _); [done|].
      destruct (json resp) as [tokens|]; [|done].
      destruct (store_tokens env _ _ _) as [[[]|x] st0]; [|done].
      destruct (build_response_ok _ _ _ _ Hrun) as (n & Hn & -> & _).
      by exists n.
    + rewrite (callback_without_code cfg env rq st He Ha Hc) in Hrun.
      injection Hrun as <- _. discriminate.
Qed.

Lemma callback_ok_is_envelope_witness :
  exists n, 0 <= n /\
    fst (callback demo_cfg issuing (plain_request []) current)
    = Ok (envelope (snd (callback demo_cfg issuing (plain_request []) current)) n).
Proof.
  destruct (callback_ok_is_envelope demo_cfg issuing (plain_request []) current
              (envelope current 1000)
              (snd (callback demo_cfg issuing (plain_request []) current)))
    as (n & Hn & Heq).
  - vm_compute. reflexivity.
  - reflexivity.
  - exists n. split; [exact Hn|]. rewrite <- Heq. vm_compute. reflexivity.
Defined.

(** A code exchange that fails before the response is stored leaves the
    session as it was, still without an access token: the callback raises
    when the token endpoint cannot be reached, answers 4xx or 5xx, or answers
    with a body that is not JSON. *)
Theorem failed_exchange_keeps_session cfg env rq st :
  exchanging rq st ->
  let rq' := exchange_request cfg (args_get rq "code") in
  (network env (length (sent st)) rq' = None \/
   exists resp, network env (length (sent st)) rq' = Some resp /\
                (400 <= status_code resp < 600 \/ json resp = None)) ->
  (exists e, fst (callback cfg env rq st) = Raise e) /\
  session (snd (callback cfg env rq st)) = session st.
Proof.
  intros Hex rq' H. rewrite (callback_exchanging cfg env _ _ Hex). fold rq'.
  cbv zeta.
  destruct H as [-> | (resp & -> & [Hst | Hj])].
  - split; [by eexists|done].
  - replace ((400 <=? status_code resp) && (status_code resp <? 600)) with true by lia.
    split; [by eexists|done].
  - destruct (_ && _); [split; [by eexists|done]|].
    rewrite Hj. split; [by eexists|done].
Qed.

Lemma failed_exchange_keeps_session_witness :
  (exists e, fst (callback demo_cfg rejecting (plain_request [("code", "abc")])
                    (with_session [])) = Raise e) /\
  session (snd (callback demo_cfg rejecting (plain_request [("code", "abc")])
                  (with_session []))) = session (with_session []).
Proof.
  apply (failed_exchange_keeps_session demo_cfg rejecting
           (plain_request [("code", "abc")]) (with_session [])).
  - repeat split; reflexivity.
  - right. exists (answer 401 None). split; [reflexivity|]. left. cbn. lia.
Defined.

(** * Further properties of the proxy handlers *)

(** [search_locations] is a pass-through: whatever status the upstream
    search answers with is the status of the reply, with the parsed body
    when it is JSON and the raw text when it is not. *)
Theorem search_locations_passes_through cfg env rq st token st1 resp :
  get_valid_access_token cfg env st = (Ok token, st1) ->
  truthy token = true ->
  network env (length (sent st1))
    (locations_search_request token (to_dict (args rq))) = Some resp ->
  search_locations cfg env rq st =
    (Ok {| r_body := match json resp with
                     | Some v => Json v
                     | None => Text (text resp)
                     end;
           r_status := status_code resp |},
     logged st1 (locations_search_request token (to_dict (args rq)))).
Proof.
  intros Hlookup Htoken Hnet. unfold search_locations.
  unfold mbind at 1, M_bind. rewrite Hlookup, Htoken. cbn [negb].
  unfold mbind, M_bind, mret, M_ret, requests_get, send.
  fold (locations_search_request token (to_dict (args rq))). rewrite Hnet.
  by destruct (json resp).
Qed.

Lemma search_locations_passes_through_witness :
  search_locations demo_cfg down (plain_request [("limit", "5")]) current =
    (Ok {| r_body := match json (answer 503 None) with
                     | Some v => Json v
                     | None => Text (text (answer 503 None))
                     end;
           r_status := status_code (answer 503 None) |},
     logged (tick current)
       (locations_search_request (PStr "A")
          (to_dict (args (plain_request [("limit", "5")]))))).
Proof.
  apply (search_locations_passes_through demo_cfg down
           (plain_request [("limit", "5")]) current (PStr "A") (tick current)
           (answer 503 None));
    [vm_compute; reflexivity | reflexivity | reflexivity].
Defined.

Lemma relay_status label parse_label resp :
  r_status (relay label parse_label resp) = 200 ->
  status_code resp = 200 /\
  exists data, json resp = Some data /\ relay label parse_label resp = jsonify data.
Proof.
  unfold relay, upstream_error, parse_error.
  destruct (status_code resp =? 200) eqn:Hs; cbn [negb].
  - destruct (json resp) as [data|]; [|discriminate].
    intros _. split; [lia|]. by exists data.
  - cbn. lia.
Qed.

Lemma relayed_get env url headers params label parse_label st reply st' :
  (requests_get env url headers params
     ≫= fun resp => mret (relay label parse_label resp)) st = (Ok reply, st') ->
  r_status reply = 200 ->
  relayed_ok env (sent st') reply.
Proof.
  unfold mbind, M_bind, mret, M_ret, requests_get, send.
  destruct (network env _ _) as [resp|] eqn:Hnet; [|done].
  intros [= <- <-] Hok.
  destruct (relay_status _ _ _ Hok) as (Hs & data & Hj & ->).
  eexists _, _, resp, data. cbn [sent]. by repeat split.
Qed.

Lemma relayed_post env url headers j label parse_label st reply st' :
  (requests_post_json env url headers j
     ≫= fun resp => mret (relay label parse_label resp)) st = (Ok reply, st') ->
  r_status reply = 200 ->
  relayed_ok env (sent st') reply.
Proof.
  unfold mbind, M_bind, mret, M_ret, requests_post_json, send.
  destruct (network env _ _) as [resp|] eqn:Hnet; [|done].
  intros [= <- <-] Hok.
  destruct (relay_status _ _ _ Hok) as (Hs & data & Hj & ->).
  eexists _, _, resp, data. cbn [sent]. by repeat split.
Qed.

Lemma param_from_session_cases tested stored_as session_key msg params st :
  param_from_session tested stored_as session_key msg params st
    = (Ok (inl (error_reply msg 400)), st) \/
  exists params', param_from_session tested stored_as session_key msg params st
                  = (Ok (inr params'), st).
Proof.
  unfold param_from_session.
  destruct (has_key tested params); cbn [negb]; [right; by eexists|].
  unfold mbind, M_bind, session_get. destruct (truthy _); cbn [negb].
  - right. by eexists.
  - by left.
Qed.

Lemma location_from_session_cases msg params st :
  location_from_session msg params st = (Ok (inl (error_reply msg 400)), st) \/
  exists params', location_from_session msg params st = (Ok (inr params'), st).
Proof.
  unfold location_from_session.
  destruct (has_key "locationId" params); cbn [negb]; [right; by eexists|].
  unfold mbind, M_bind, session_get. destruct (truthy _); cbn [negb].
  - right. by eexists.
  - by left.
Qed.

(** How a handler begins: the token lookup, then the 401 on an empty token. *)
Ltac open_handler handler cfg env st Hrun :=
  unfold handler in Hrun; unfold mbind at 1, M_bind in Hrun;
  destruct (get_valid_access_token cfg env st) as [[token|x] st1]; [|done];
  destruct (truthy token); cbn [negb] in Hrun;
  [|injection Hrun as <- _; discriminate].

(** The relaying handlers never make up a 200: when [get_campaigns],
    [get_pipelines], [get_opportunities], [get_users] or [search_contacts]
    answers 200, the last request it sent was answered 200 with a JSON body,
    and that body is the reply. *)
Theorem relaying_handlers_honest cfg env :
  honest_200 env (get_campaigns cfg env) /\
  honest_200 env (get_pipelines cfg env) /\
  honest_200 env (get_opportunities cfg env) /\
  honest_200 env (get_users cfg env) /\
  honest_200 env (search_contacts cfg env).
Proof.
  split; [|split; [|split; [|split]]]; intros rq st reply st' Hrun Hok.
  - open_handler get_campaigns cfg env st Hrun.
    unfold mbind at 1, M_bind in Hrun.
    destruct (location_from_session_cases
                "No locationId found in session or request." (to_dict (args rq)) st1)
      as [Hl | (params & Hl)]; rewrite Hl in Hrun.
    + injection Hrun as <- _. discriminate.
    + by eapply relayed_get.
  - open_handler get_pipelines cfg env st Hrun.
    unfold mbind at 1, M_bind in Hrun.
    destruct (location_from_session_cases
                "No locationId found in session or request." (to_dict (args rq)) st1)
      as [Hl | (params & Hl)]; rewrite Hl in Hrun.
    + injection Hrun as <- _. discriminate.
    + by eapply relayed_get.
  - open_handler get_opportunities cfg env st Hrun.
    unfold mbind at 1, M_bind in Hrun.
    destruct (param_from_session_cases "location_id" "location_id" "location_id"
                "No location_id found in session or request." (to_dict (args rq)) st1)
      as [Hl | (params & Hl)]; rewrite Hl in Hrun.
    + injection Hrun as <- _. discriminate.
    + by eapply relayed_get.
  - open_handler get_users cfg env st Hrun.
    unfold mbind at 1, M_bind in Hrun.
    destruct (param_from_session_cases "companyId" "companyId" "company_id"
                "No companyId found in session or request." (to_dict (args rq)) st1)
      as [Hc | (params0 & Hc)]; rewrite Hc in Hrun.
    { injection Hrun as <- _. discriminate. }
    unfold mbind at 1, M_bind in Hrun.
    destruct (param_from_session_cases "location_id" "locationId" "location_id"
                "No location_id found in session or request." params0 st1)
      as [Hl | (params & Hl)]; rewrite Hl in Hrun.
    + injection Hrun as <- _. discriminate.
    + by eapply relayed_get.
  - open_handler search_contacts cfg env st Hrun.
    unfold mbind at 1, M_bind in Hrun. unfold get_json in Hrun.
    destruct (body rq) as [parsed|]; [|done].
    unfold mret at 1, M_ret in Hrun. unfold mbind at 1, M_bind in Hrun.
    unfold lift at 1 in Hrun.
    destruct (py_get _ "locationId" PNone) as [given|y]; [|done].
    unfold mbind at 1, M_bind in Hrun.
    destruct (truthy given); cbn [negb] in Hrun.
    + unfold mret at 1, M_ret in Hrun. by eapply relayed_post.
    + unfold mbind at 1, M_bind in Hrun. unfold session_get at 1 in Hrun.
      destruct (truthy (default PNone (session st1 !! "location_id")));
        cbn [negb] in Hrun.
      * unfold mbind at 1, M_bind in Hrun. unfold lift at 1 in Hrun.
        destruct (py_setitem _ _ _) as [updated|y]; [|done].
        unfold mret at 1, M_ret in Hrun. by eapply relayed_post.
      * unfold mret at 1, M_ret in Hrun. injection Hrun as <- _. discriminate.
Qed.

Lemma relaying_handlers_honest_witness :
  relayed_ok catalogue
    (sent (snd (get_pipelines demo_cfg catalogue (plain_request []) current)))
    (jsonify (PDict [("locations", PList [PDict [("id", PStr "L7")];
                                          PDict [("id", PStr "L8")]])])).
Proof.
  destruct (relaying_handlers_honest demo_cfg catalogue) as (_ & Hp & _).
  apply (Hp (plain_request []) current _
            (snd (get_pipelines demo_cfg catalogue (plain_request []) current))).
  - vm_compute. reflexivity.
  - reflexivity.
Defined.

Lemma dict_lookup_store_ne k k' v d :
  k <> k' -> dict_lookup k (dict_store k' v d) = dict_lookup k d.
Proof.
  intros Hne. induction d as [|[k0 v0] d IH]; cbn [dict_store dict_lookup].
  - by destruct (String.eqb_spec k k').
  - destruct (String.eqb_spec k' k0) as [->|Hk0]; cbn [dict_lookup].
    + by destruct (String.eqb_spec k k0).
    + destruct (String.eqb_spec k k0); [done|]. exact IH.
Qed.

Lemma param_from_session_present tested stored_as session_key msg params st v :
  dict_lookup tested params = Some v ->
  param_from_session tested stored_as session_key msg params st
  = (Ok (inr params), st).
Proof.
  intros H. unfold param_from_session, has_key. rewrite H.
  by rewrite bool_decide_eq_true_2 by (by eexists).
Qed.

Lemma param_from_session_absent tested stored_as session_key msg params st :
  dict_lookup tested params = None ->
  param_from_session tested stored_as session_key msg params st
  = if truthy (stored_value st session_key)
    then (Ok (inr (dict_store stored_as (stored_value st session_key) params)), st)
    else (Ok (inl (error_reply msg 400)), st).
Proof.
  intros H. unfold param_from_session, has_key. rewrite H.
  rewrite bool_decide_eq_false_2 by (by intros [? ?]). cbn [negb].
  unfold mbind, M_bind, session_get. fold (stored_value st session_key).
  by destruct (truthy (stored_value st session_key)).
Qed.

(** [get_users] tests the query for the key [location_id] but stores the
    tenant under [locationId]: a request that names its tenant as
    [locationId] only has that value overwritten by the session's tenant, and
    is turned down with a 400 when the session has none. *)
Theorem get_users_overrides_query_location cfg env rq st token st1 c q :
  get_valid_access_token cfg env st = (Ok token, st1) ->
  truthy token = true ->
  first_value "companyId" (args rq) = Some c ->
  first_value "locationId" (args rq) = Some q ->
  first_value "location_id" (args rq) = None ->
  let kept := stored_value st1 "location_id" in
  if truthy kept then
    exists params,
      sent (snd (get_users cfg env rq st))
        = (sent st1 ++ [users_request token params])%list /\
      dict_lookup "locationId" params = Some kept /\
      dict_lookup "companyId" params = Some (PStr c)
  else
    get_users cfg env rq st
    = (Ok (error_reply "No location_id found in session or request." 400), st1).
Proof.
  intros Hlookup Htoken Hc Hq Hl kept. subst kept.
  assert (Hrun : get_users cfg env rq st =
    match param_from_session "location_id" "locationId" "location_id"
            "No location_id found in session or request." (to_dict (args rq)) st1 with
    | (Ok (inr params), st2) =>
        (requests_get env (API "/users/search")
           [("Authorization", HBearer token); ("Version", HLit "2021-07-28")] params
         ≫= fun resp => mret (relay "Error fetching users"
                                    "Could not parse users response" resp)) st2
    | (Ok (inl early), st2) => (Ok early, st2)
    | (Raise x, st2) => (Raise x, st2)
    end).
  { unfold get_users. unfold mbind at 1, M_bind. rewrite Hlookup, Htoken.
    cbn [negb]. unfold mbind at 1, M_bind.
    rewrite (param_from_session_present _ _ _ _ _ _ (PStr c))
      by (by rewrite dict_lookup_to_dict, Hc).
    unfold mbind at 1, M_bind.
    by destruct (param_from_session _ _ _ _ _ _) as [[[early|params]|x] st2]. }
  rewrite Hrun, param_from_session_absent by (by rewrite dict_lookup_to_dict, Hl).
  destruct (truthy (stored_value st1 "location_id")); [|done].
  exists (dict_store "locationId" (stored_value st1 "location_id") (to_dict (args rq))).
  split; [|split].
  - unfold mbind, M_bind, mret, M_ret, requests_get, send, users_request.
    by destruct (network env _ _).
  - apply dict_lookup_store.
  - rewrite dict_lookup_store_ne by done. by rewrite dict_lookup_to_dict, Hc.
Qed.

Lemma get_users_overrides_query_location_witness :
  exists params,
    sent (snd (get_users demo_cfg catalogue users_query current))
      = (sent (tick current) ++ [users_request (PStr "A") params])%list /\
    dict_lookup "locationId" params = Some (stored_value (tick current) "location_id") /\
    dict_lookup "companyId" params = Some (PStr "C7").
Proof.
  assert (Hlookup : get_valid_access_token demo_cfg catalogue current
                    = (Ok (PStr "A"), tick current)) by (vm_compute; reflexivity).
  exact (get_users_overrides_query_location demo_cfg catalogue users_query current
           (PStr "A") (tick current) "C7" "Q" Hlookup eq_refl eq_refl eq_refl eq_refl).
Defined.

(** [get_users] needs a company before it looks for a tenant.  When the
    query has no [companyId] key and the session has no company either, it
    answers 400 naming [companyId] and calls nothing, whatever tenant the
    request or the session names.  When the session has a company, every
    search it sends carries that company as [companyId]: with a
    [location_id] key in the query the company is the only parameter added,
    without one the session's tenant is added as well, and without any
    tenant the answer is the 400 naming [location_id]. *)
Theorem get_users_needs_company cfg env rq st token st1 :
  get_valid_access_token cfg env st = (Ok token, st1) ->
  truthy token = true ->
  first_value "companyId" (args rq) = None ->
  let company := stored_value st1 "company_id" in
  let kept := stored_value st1 "location_id" in
  let with_company := dict_store "companyId" company (to_dict (args rq)) in
  if truthy company then
    if bool_decide (is_Some (first_value "location_id" (args rq))) then
      sent (snd (get_users cfg env rq st))
        = (sent st1 ++ [users_request token with_company])%list /\
      dict_lookup "companyId" with_company = Some company
    else if truthy kept then
      sent (snd (get_users cfg env rq st))
        = (sent st1 ++ [users_request token
                          (dict_store "locationId" kept with_company)])%list /\
      dict_lookup "companyId" (dict_store "locationId" kept with_company)
        = Some company
    else
      get_users cfg env rq st
      = (Ok (error_reply "No location_id found in session or request." 400), st1)
  else
    get_users cfg env rq st
    = (Ok (error_reply "No companyId found in session or request." 400), st1).
Proof.
  intros Hlookup Htoken Hc company kept with_company.
  subst company kept with_company.
  destruct (truthy (stored_value st1 "company_id")) eqn:Hk.
  - case_bool_decide as Hl.
    + destruct Hl as [l Hl]. split; [|apply dict_lookup_store].
      unfold get_users. unfold mbind at 1, M_bind.
      rewrite Hlookup, Htoken. cbn [negb]. unfold mbind at 1, M_bind.
      rewrite param_from_session_absent by (by rewrite dict_lookup_to_dict, Hc).
      rewrite Hk. unfold mbind at 1, M_bind.
      rewrite (param_from_session_present _ _ _ _ _ _ (PStr l))
        by (rewrite dict_lookup_store_ne by done; by rewrite dict_lookup_to_dict, Hl).
      unfold mbind, M_bind, mret, M_ret, requests_get, send, users_request.
      by destruct (network env _ _).
    + assert (Hnone : first_value "location_id" (args rq) = None).
      { destruct (first_value "location_id" (args rq)); [|done].
        destruct Hl. by eexists. }
      destruct (truthy (stored_value st1 "location_id")) eqn:Hkept;
        [split|];
        try (rewrite dict_lookup_store_ne by done; apply dict_lookup_store);
        unfold get_users; unfold mbind at 1, M_bind;
        rewrite Hlookup, Htoken; cbn [negb]; unfold mbind at 1, M_bind;
        rewrite param_from_session_absent by (by rewrite dict_lookup_to_dict, Hc);
        rewrite Hk; unfold mbind at 1, M_bind;
        rewrite param_from_session_absent
          by (rewrite dict_lookup_store_ne by done;
              by rewrite dict_lookup_to_dict, Hnone);
        rewrite Hkept; [|done].
      unfold mbind, M_bind, mret, M_ret, requests_get, send, users_request.
      by destruct (network env _ _).
  - unfold get_users. unfold mbind at 1, M_bind.
    rewrite Hlookup, Htoken. cbn [negb]. unfold mbind at 1, M_bind.
    rewrite param_from_session_absent by (by rewrite dict_lookup_to_dict, Hc).
    by rewrite Hk.
Qed.

Lemma get_users_needs_company_witness :
  sent (snd (get_users demo_cfg catalogue (plain_request []) current))
    = (sent (tick current)
       ++ [users_request (PStr "A")
             (dict_store "locationId" (stored_value (tick current) "location_id")
                (dict_store "companyId" (stored_value (tick current) "company_id")
                   (to_dict (args (plain_request [])))))])%list /\
  dict_lookup "companyId"
    (dict_store "locationId" (stored_value (tick current) "location_id")
       (dict_store "companyId" (stored_value (tick current) "company_id")
          (to_dict (args (plain_request [])))))
  = Some (stored_value (tick current) "company_id").
Proof.
  assert (Hlookup : get_valid_access_token demo_cfg catalogue current
                    = (Ok (PStr "A"), tick current)) by (vm_compute; reflexivity).
  exact (get_users_needs_company demo_cfg catalogue (plain_request []) current
           (PStr "A") (tick current) Hlookup eq_refl eq_refl).
Defined.

(** [get_opportunities] knows the tenant as [location_id] only: the
    [locationId] spelling in the query does not count, so such a request gets
    the session's tenant added under [location_id] beside its own
    [locationId], and a 400 when the session has none. *)
Theorem get_opportunities_wants_location_id cfg env rq st token st1 q :
  get_valid_access_token cfg env st = (Ok token, st1) ->
  truthy token = true ->
  first_value "location_id" (args rq) = None ->
  first_value "locationId" (args rq) = Some q ->
  let kept := stored_value st1 "location_id" in
  if truthy kept then
    exists params,
      sent (snd (get_opportunities cfg env rq st))
        = (sent st1 ++ [opportunities_request token params])%list /\
      dict_lookup "location_id" params = Some kept /\
      dict_lookup "locationId" params = Some (PStr q)
  else
    get_opportunities cfg env rq st
    = (Ok (error_reply "No location_id found in session or request." 400), st1).
Proof.
  intros Hlookup Htoken Hl Hq kept. subst kept.
  destruct (truthy (stored_value st1 "location_id")) eqn:Hk;
    unfold get_opportunities; unfold mbind at 1, M_bind;
    rewrite Hlookup, Htoken; cbn [negb]; unfold mbind at 1, M_bind;
    rewrite param_from_session_absent by (by rewrite dict_lookup_to_dict, Hl);
    rewrite Hk; [|done].
  exists (dict_store "location_id" (stored_value st1 "location_id")
            (to_dict (args rq))).
  split; [|split].
  - unfold mbind, M_bind, mret, M_ret, requests_get, send, opportunities_request.
    by destruct (network env _ _).
  - apply dict_lookup_store.
  - rewrite dict_lookup_store_ne by done. by rewrite dict_lookup_to_dict, Hq.
Qed.

Lemma get_opportunities_wants_location_id_witness :
  exists params,
    sent (snd (get_opportunities demo_cfg catalogue users_query current))
      = (sent (tick current) ++ [opportunities_request (PStr "A") params])%list /\
    dict_lookup "location_id" params = Some (stored_value (tick current) "location_id") /\
    dict_lookup "locationId" params = Some (PStr "Q").
Proof.
  assert (Hlookup : get_valid_access_token demo_cfg catalogue current
                    = (Ok (PStr "A"), tick current)) by (vm_compute; reflexivity).
  exact (get_opportunities_wants_location_id demo_cfg catalogue users_query current
           (PStr "A") (tick current) "Q" Hlookup eq_refl eq_refl eq_refl).
Defined.

(** * The composite search *)

Lemma sent_only_one P before r : P r -> sent_only P before (before ++ [r]).
Proof. intros Hr. exists [r]. split; [done|]. by constructor. Qed.

Lemma sent_only_none P before : sent_only P before before.
Proof. exists []. split; [by rewrite app_nil_r|]. constructor. Qed.

Lemma sent_only_trans P a b c :
  sent_only P a b -> sent_only P b c -> sent_only P a c.
Proof.
  intros (n1 & -> & F1) (n2 & -> & F2). exists (n1 ++ n2)%list.
  split; [by rewrite app_assoc|]. by apply Forall_app.
Qed.

(** [search_location_and_get_campaigns] asks for the campaigns of one fixed
    tenant: every request for campaigns it sends names the tenant
    [Vhl9bqjezncp1pfb1gu4], and when the search finds locations the campaigns
    call that follows is the same whatever the id of the location found. *)
Theorem campaigns_fetched_for_fixed_tenant cfg env rq st token st1 :
  get_valid_access_token cfg env st = (Ok token, st1) ->
  truthy token = true ->
  sent_only campaigns_of_fixed_tenant (sent st1)
    (sent (snd (search_location_and_get_campaigns cfg env rq st))) /\
  (forall resp found location others found_id,
     network env (length (sent st1)) (filtered_search_request token rq) = Some resp ->
     status_code resp = 200 ->
     json resp = Some (PDict found) ->
     dict_lookup "locations" found = Some (PList (location :: others)) ->
     py_getitem location "id" = Ok found_id ->
     sent (snd (search_location_and_get_campaigns cfg env rq st))
     = (sent st1 ++ [filtered_search_request token rq;
                     fixed_campaigns_request token (args_get rq "status")])%list).
Proof.
  intros Hlookup Htoken. split.
  - unfold search_location_and_get_campaigns. unfold mbind at 1, M_bind.
    rewrite Hlookup, Htoken. cbn [negb]. cbv zeta.
    unfold mbind at 1, M_bind. unfold requests_get at 1, send.
    match goal with
    | |- context [(sent st1 ++ [?r])%list] =>
        apply (sent_only_trans _ _ (sent st1 ++ [r])%list);
          [apply sent_only_one; intros Hu; discriminate Hu|]
    end.
    destruct (network env _ _) as [resp|]; [|apply sent_only_none].
    destruct (status_code resp =? 200); cbn [negb]; [|apply sent_only_none].
    unfold mbind at 1, M_bind. unfold resp_json.
    destruct (json resp) as [search_json|]; [|apply sent_only_none].
    unfold mret at 1, M_ret. unfold mbind at 1, M_bind. unfold lift at 1.
    destruct (py_get search_json _ _) as [locations|x]; [|apply sent_only_none].
    destruct (py_head locations) as [|location|e]; try apply sent_only_none.
    unfold mbind at 1, M_bind. unfold lift at 1.
    destruct (py_getitem location "id") as [found_id|x]; [|apply sent_only_none].
    unfold mbind at 1, M_bind. unfold requests_get, send.
    assert (Hfixed : forall s r,
              r = fixed_campaigns_request token (args_get rq "status") ->
              sent_only campaigns_of_fixed_tenant s (s ++ [r])).
    { intros s r -> . apply sent_only_one. intros _.
      unfold fixed_campaigns_request, tenant_sent.
      by destruct (truthy (args_get rq "status")). }
    destruct (truthy (args_get rq "status")) eqn:Hst;
      (destruct (network env _ _) as [cresp|]; cbn [snd sent];
       [destruct (status_code cresp =? 200); cbn [negb];
        [destruct (json cresp) as [cj|];
         [unfold mbind, M_bind, lift; destruct (py_get cj _ _)|]|]|]);
      cbn [snd sent]; apply Hfixed; unfold fixed_campaigns_request;
      by rewrite Hst.
  - intros resp found location others found_id Hnet Hs Hj Hf Hid.
    unfold search_location_and_get_campaigns. unfold mbind at 1, M_bind.
    rewrite Hlookup, Htoken. cbn [negb]. cbv zeta.
    unfold mbind at 1, M_bind. unfold requests_get at 1, send.
    fold (filtered_search_request token rq) in *.
    unfold filtered_search_request, locations_search_request in Hnet |- *.
    rewrite Hnet, Hs. cbn [Z.eqb Pos.eqb negb].
    unfold mbind at 1, M_bind. unfold resp_json. rewrite Hj.
    unfold mret at 1, M_ret. unfold mbind at 1, M_bind. unfold lift at 1.
    cbn [py_get]. rewrite Hf. cbn [default from_option id py_head truthy negb].
    unfold mbind at 1, M_bind. unfold lift at 1. rewrite Hid.
    unfold mbind at 1, M_bind. unfold requests_get, send.
    unfold fixed_campaigns_request, campaigns_request. clear Hnet.
    destruct (truthy (args_get rq "status"));
      (destruct (network env _ _) as [cresp|]; cbn [snd sent];
       [destruct (status_code cresp =? 200); cbn [negb];
        [destruct (json cresp) as [cj|];
         [unfold mbind, M_bind, lift; destruct (py_get cj _ _)|]|]|]);
      cbn [snd sent]; by rewrite <- app_assoc.
Qed.

Lemma campaigns_fetched_for_fixed_tenant_witness :
  sent (snd (search_location_and_get_campaigns demo_cfg catalogue
               (plain_request [("email", "a@b.c"); ("status", "active")]) current))
  = (sent (tick current)
     ++ [filtered_search_request (PStr "A")
           (plain_request [("email", "a@b.c"); ("status", "active")]);
         fixed_campaigns_request (PStr "A")
           (args_get (plain_request [("email", "a@b.c"); ("status", "active")])
              "status")])%list.
Proof.
  assert (Hlookup : get_valid_access_token demo_cfg catalogue current
                    = (Ok (PStr "A"), tick current)) by (vm_compute; reflexivity).
  destruct (campaigns_fetched_for_fixed_tenant demo_cfg catalogue
              (plain_request [("email", "a@b.c"); ("status", "active")]) current
              (PStr "A") (tick current) Hlookup eq_refl) as [_ Hfound].
  apply (Hfound (answer 200 (Some (PDict [("locations",
                    PList [PDict [("id", PStr "L7")]; PDict [("id", PStr "L8")]])])))
           [("locations", PList [PDict [("id", PStr "L7")]; PDict [("id", PStr "L8")]])]
           (PDict [("id", PStr "L7")]) [PDict [("id", PStr "L8")]] (PStr "L7"));
    reflexivity.
Defined.

Lemma dict_lookup_filter_keys ks k (d : list (string * pyval)) :
  dict_lookup k (List.filter (fun kv => existsb (String.eqb (fst kv)) ks) d)
  = if existsb (String.eqb k) ks then dict_lookup k d else None.
Proof.
  induction d as [|[k0 v] d IH]; cbn [List.filter dict_lookup fst].
  - by destruct (existsb _ ks).
  - destruct (existsb (String.eqb k0) ks) eqn:Hk0; cbn [dict_lookup].
    + destruct (String.eqb_spec k k0) as [->|Hne]; [by rewrite Hk0|exact IH].
    + destruct (String.eqb_spec k k0) as [->|Hne]; [|exact IH].
      by rewrite IH, Hk0.
Qed.

(** The search of [search_location_and_get_campaigns] is always the first
    call after the token lookup, and it forwards the query's [companyId],
    [email], [limit], [order] and [skip] and nothing else: any other query
    parameter, [status] included, stays out of it. *)
Theorem search_forwards_listed_keys_only cfg env rq st token st1 :
  get_valid_access_token cfg env st = (Ok token, st1) ->
  truthy token = true ->
  (exists rest,
     sent (snd (search_location_and_get_campaigns cfg env rq st))
     = (sent st1 ++ filtered_search_request token rq :: rest)%list) /\
  (forall k,
     dict_lookup k (req_params (filtered_search_request token rq))
     = if existsb (String.eqb k) search_keys
       then PStr <$> first_value k (args rq)
       else None).
Proof.
  intros Hlookup Htoken. split.
  - unfold search_location_and_get_campaigns. unfold mbind at 1, M_bind.
    rewrite Hlookup, Htoken. cbn [negb]. cbv zeta.
    unfold mbind at 1, M_bind. unfold requests_get at 1, send.
    fold (filtered_search_request token rq).
    unfold filtered_search_request, locations_search_request.
    match goal with
    | |- context [network env ?n ?r] => destruct (network env n r) as [resp|]
    end; [|by exists []].
    destruct (status_code resp =? 200); cbn [negb]; [|by exists []].
    unfold mbind at 1, M_bind. unfold resp_json.
    destruct (json resp) as [search_json|]; [|by exists []].
    unfold mret at 1, M_ret. unfold mbind at 1, M_bind. unfold lift at 1.
    destruct (py_get search_json _ _) as [locations|x]; [|by exists []].
    destruct (py_head locations) as [|location|e]; try by exists [].
    unfold mbind at 1, M_bind. unfold lift at 1.
    destruct (py_getitem location "id") as [found_id|x]; [|by exists []].
    unfold mbind at 1, M_bind. unfold requests_get, send.
    eexists [_].
    match goal with
    | |- context [network env ?n ?r] => destruct (network env n r) as [cresp|]
    end; cbn [snd sent];
      [destruct (status_code cresp =? 200); cbn [negb];
       [destruct (json cresp) as [cj|];
        [unfold mbind, M_bind, lift; destruct (py_get cj _ _)|]|]|];
      cbn [snd sent]; by rewrite <- app_assoc.
  - intros k. unfold filtered_search_request, locations_search_request.
    cbn [req_params]. by rewrite dict_lookup_filter_keys, dict_lookup_to_dict.
Qed.

Lemma search_forwards_listed_keys_only_witness :
  dict_lookup "status"
    (req_params (filtered_search_request (PStr "A")
                   (plain_request [("email", "a@b.c"); ("status", "active")])))
  = None /\
  dict_lookup "email"
    (req_params (filtered_search_request (PStr "A")
                   (plain_request [("email", "a@b.c"); ("status", "active")])))
  = Some (PStr "a@b.c").
Proof.
  assert (Hlookup : get_valid_access_token demo_cfg catalogue current
                    = (Ok (PStr "A"), tick current)) by (vm_compute; reflexivity).
  destruct (search_forwards_listed_keys_only demo_cfg catalogue
              (plain_request [("email", "a@b.c"); ("status", "active")]) current
              (PStr "A") (tick current) Hlookup eq_refl) as [_ Hkeys].
  split; [exact (Hkeys "status") | exact (Hkeys "email")].
Defined.

(** When the search of [search_location_and_get_campaigns] yields no
    location the campaigns endpoint is never called: a status other than 200
    is passed on with the raw body as detail, a 200 whose body is not JSON
    makes the handler raise, and a 200 whose [locations] is missing or empty
    is answered 404. *)
Theorem search_leg_failures cfg env rq st token st1 resp :
  get_valid_access_token cfg env st = (Ok token, st1) ->
  truthy token = true ->
  network env (length (sent st1)) (filtered_search_request token rq) = Some resp ->
  let st2 := logged st1 (filtered_search_request token rq) in
  (status_code resp <> 200 ->
   search_location_and_get_campaigns cfg env rq st
   = (Ok (with_status
            (jsonify (PDict [("error", PStr "Error searching locations");
                             ("detail", PStr (text resp))]))
            (status_code resp)), st2)) /\
  (status_code resp = 200 -> json resp = None ->
   search_location_and_get_campaigns cfg env rq st = (Raise JSONDecodeError, st2)) /\
  (forall found,
     status_code resp = 200 -> json resp = Some (PDict found) ->
     truthy (default (PList []) (dict_lookup "locations" found)) = false ->
     search_location_and_get_campaigns cfg env rq st
     = (Ok (error_reply "No locations found matching the search criteria." 404),
        st2)).
Proof.
  intros Hlookup Htoken Hnet st2. subst st2.
  unfold filtered_search_request, locations_search_request in *.
  split; [|split].
  - intros Hs. unfold search_location_and_get_campaigns.
    unfold mbind at 1, M_bind. rewrite Hlookup, Htoken. cbn [negb]. cbv zeta.
    unfold mbind at 1, M_bind. unfold requests_get at 1, send. rewrite Hnet.
    replace (status_code resp =? 200) with false by lia. reflexivity.
  - intros Hs Hj. unfold search_location_and_get_campaigns.
    unfold mbind at 1, M_bind. rewrite Hlookup, Htoken. cbn [negb]. cbv zeta.
    unfold mbind at 1, M_bind. unfold requests_get at 1, send. rewrite Hnet, Hs.
    cbn [Z.eqb Pos.eqb negb]. unfold mbind at 1, M_bind. unfold resp_json.
    by rewrite Hj.
  - intros found Hs Hj Hf. unfold search_location_and_get_campaigns.
    unfold mbind at 1, M_bind. rewrite Hlookup, Htoken. cbn [negb]. cbv zeta.
    unfold mbind at 1, M_bind. unfold requests_get at 1, send. rewrite Hnet, Hs.
    cbn [Z.eqb Pos.eqb negb]. unfold mbind at 1, M_bind. unfold resp_json.
    rewrite Hj. unfold mret at 1, M_ret. unfold mbind at 1, M_bind.
    unfold lift at 1. cbn [py_get]. unfold py_head. by rewrite Hf.
Qed.

Lemma search_leg_failures_witness :
  search_location_and_get_campaigns demo_cfg down (plain_request []) current
  = (Ok (with_status
           (jsonify (PDict [("error", PStr "Error searching locations");
                            ("detail", PStr (text (answer 503 None)))]))
           (status_code (answer 503 None))),
     logged (tick current) (filtered_search_request (PStr "A") (plain_request []))).
Proof.
  assert (Hlookup : get_valid_access_token demo_cfg down current
                    = (Ok (PStr "A"), tick current)) by (vm_compute; reflexivity).
  destruct (search_leg_failures demo_cfg down (plain_request []) current
              (PStr "A") (tick current) (answer 503 None) Hlookup eq_refl eq_refl)
    as [Hstatus _].
  apply Hstatus. cbn. lia.
Defined.

(** * The profile page *)

(** [profile] sends the browser back to the index page, without calling the
    API, when the token lookup yields an empty token or the session holds no
    tenant. *)
Theorem profile_redirects_without_credentials cfg env st token st1 :
  get_valid_access_token cfg env st = (Ok token, st1) ->
  truthy token = false \/ truthy (stored_value st1 "location_id") = false ->
  profile cfg env st = (Ok (RedirectTo "index"), st1).
Proof.
  intros Hlookup H. unfold profile. unfold mbind at 1, M_bind. rewrite Hlookup.
  unfold mbind at 1, M_bind. unfold session_get at 1.
  fold (stored_value st1 "location_id").
  destruct H as [-> | ->]; cbn [negb orb]; [done|].
  by rewrite orb_true_r.
Qed.

Lemma profile_redirects_without_credentials_witness :
  profile demo_cfg down
    (with_session [("access_token", PStr "A"); ("token_expires_at", PInt 2000)])
  = (Ok (RedirectTo "index"),
     tick (with_session [("access_token", PStr "A"); ("token_expires_at", PInt 2000)])).
Proof.
  apply (profile_redirects_without_credentials demo_cfg down _ (PStr "A")).
  - vm_compute. reflexivity.
  - right. reflexivity.
Defined.

(** With a token and a tenant, [profile] makes its three calls (location,
    campaigns, first ten contacts) one after the other and answers 200 with
    one field per call, whatever the status codes: a call answered with JSON
    contributes that JSON even on an error status, and a call answered with
    anything else contributes an object holding the raw text and the status,
    without disturbing the other two. *)
Theorem profile_collects_three_legs cfg env st token st1 r1 r2 r3 :
  get_valid_access_token cfg env st = (Ok token, st1) ->
  truthy token = true ->
  let location_id := stored_value st1 "location_id" in
  truthy location_id = true ->
  (forall i r resp,
     profile_requests token location_id !! i = Some r ->
     [r1; r2; r3] !! i = Some resp ->
     network env (length (sent st1) + i) r = Some resp) ->
  profile cfg env st =
    (Ok (Page (jsonify (PDict [("location", safe_get_json r1);
                               ("campaigns", safe_get_json r2);
                               ("contacts", safe_get_json r3)]))),
     {| session := session st1; ticks := ticks st1;
        sent := (sent st1 ++ profile_requests token location_id)%list |}).
Proof.
  intros Hlookup Htoken location_id Hloc Hnet. subst location_id.
  pose proof (Hnet 0%nat _ r1 eq_refl eq_refl) as H1.
  pose proof (Hnet 1%nat _ r2 eq_refl eq_refl) as H2.
  pose proof (Hnet 2%nat _ r3 eq_refl eq_refl) as H3.
  rewrite Nat.add_0_r in H1.
  unfold profile. unfold mbind at 1, M_bind. rewrite Hlookup.
  unfold mbind at 1, M_bind. unfold session_get at 1.
  fold (stored_value st1 "location_id"). rewrite Htoken, Hloc. cbn [negb orb].
  unfold mbind, M_bind, mret, M_ret, requests_get, send. cbv zeta.
  cbn [sent session ticks]. rewrite H1. cbn [sent session ticks].
  rewrite length_app. cbn [length]. rewrite H2. cbn [sent session ticks].
  rewrite !length_app. cbn [length].
  replace (length (sent st1) + 1 + 1)%nat with (length (sent st1) + 2)%nat by lia.
  rewrite H3. unfold profile_requests. by rewrite <- !app_assoc.
Qed.

Lemma profile_collects_three_legs_witness :
  profile demo_cfg down current =
    (Ok (Page (jsonify (PDict [("location", safe_get_json (answer 503 None));
                               ("campaigns", safe_get_json (answer 503 None));
                               ("contacts", safe_get_json (answer 503 None))]))),
     {| session := session (tick current); ticks := ticks (tick current);
        sent := (sent (tick current)
                 ++ profile_requests (PStr "A")
                      (stored_value (tick current) "location_id"))%list |}).
Proof.
  apply (profile_collects_three_legs demo_cfg down current (PStr "A") (tick current)).
  - vm_compute. reflexivity.
  - reflexivity.
  - reflexivity.
  - intros [|[|[|i]]] r resp Hr Hresp; cbn in Hr, Hresp; simplify_eq; reflexivity.
Defined.

(** * What handlers leave alone *)

Lemma quiet_ret {A} (a : A) : quiet (mret a).
Proof. by intros st. Qed.

Lemma quiet_throw {A} e : quiet (throw (A := A) e).
Proof. by intros st. Qed.

Lemma quiet_lift {A} (r : result A) : quiet (lift r).
Proof. by intros st. Qed.

Lemma quiet_session_get k : quiet (session_get k).
Proof. by intros st. Qed.

Lemma quiet_bind {A B} (m : M A) (f : A -> M B) :
  quiet m -> (forall a, quiet (f a)) -> quiet (m ≫= f).
Proof.
  intros Hm Hf st. unfold mbind, M_bind. specialize (Hm st).
  destruct (m st) as [[a|x] st1]; cbn [snd] in *; [|done].
  by rewrite Hf.
Qed.

Lemma quiet_send env r : quiet (send env r).
Proof. intros st. unfold send. by destruct (network env _ _). Qed.

Lemma session_after_bind {A B} (m : M A) (f : A -> M B) st :
  (forall a, quiet (f a)) ->
  session (snd ((m ≫= f) st)) = session (snd (m st)).
Proof.
  intros Hf. unfold mbind, M_bind.
  destruct (m st) as [[a|x] st1]; cbn [snd]; [|done]. apply Hf.
Qed.

(** Breaks a computation built from requests, session reads and tests down
    to its parts. *)
Ltac quiet_steps :=
  repeat first
    [ apply quiet_ret | apply quiet_throw | apply quiet_lift
    | apply quiet_session_get | apply quiet_send
    | apply quiet_bind; [|intros ?]
    | progress unfold requests_get, requests_post_json, resp_json, get_json,
        location_from_session, param_from_session
    | match goal with
      | |- quiet (if ?b then _ else _) => destruct b
      | |- quiet (match ?x with _ => _ end) => destruct x
      | |- quiet (let _ := _ in _) => cbv zeta
      end ].

Lemma quiet_enrich env headers conversations :
  forall acc, quiet (enrich env headers conversations acc).
Proof.
  induction conversations as [|conv rest IH]; intros acc; cbn [enrich].
  - apply quiet_ret.
  - quiet_steps; apply IH.
Qed.

(** After the token lookup no proxy handler writes to the session: whatever
    the request and however the handler ends, the session it leaves is the
    one [get_valid_access_token] left. *)
Theorem handlers_leave_session_to_lookup cfg env :
  session_as_after_lookup cfg env (search_locations cfg env) /\
  session_as_after_lookup cfg env (search_location_and_get_campaigns cfg env) /\
  session_as_after_lookup cfg env (get_conversations_with_details cfg env) /\
  session_as_after_lookup cfg env (get_opportunities cfg env) /\
  session_as_after_lookup cfg env (get_pipelines cfg env) /\
  session_as_after_lookup cfg env (get_campaigns cfg env) /\
  session_as_after_lookup cfg env (get_users cfg env) /\
  session_as_after_lookup cfg env (search_contacts cfg env) /\
  (forall st, session (snd (profile cfg env st))
              = session (snd (get_valid_access_token cfg env st))).
Proof.
  unfold session_as_after_lookup. repeat split; intros;
    unfold search_locations, search_location_and_get_campaigns,
      get_conversations_with_details, get_opportunities, get_pipelines,
      get_campaigns, get_users, search_contacts, profile;
    apply session_after_bind; intros token;
    quiet_steps; apply quiet_enrich.
Qed.

(** * More on search, then enrich *)

(** When the conversation search itself fails no detail call is made: a
    status other than 200 is answered with that status in an error envelope,
    and a 200 whose body is not JSON with a 500. *)
Theorem failed_conversation_search_stops cfg env rq st token st1 params resp :
  get_valid_access_token cfg env st = (Ok token, st1) ->
  truthy token = true ->
  location_from_session "No locationId found in session or request."
    (to_dict (args rq)) st1 = (Ok (inr params), st1) ->
  network env (length (sent st1)) (conversations_search_request token params)
    = Some resp ->
  let st2 := logged st1 (conversations_search_request token params) in
  (status_code resp <> 200 ->
   get_conversations_with_details cfg env rq st
   = (Ok (upstream_error "Error searching conversations" resp), st2)) /\
  (status_code resp = 200 -> json resp = None ->
   get_conversations_with_details cfg env rq st
   = (Ok (parse_error "Could not parse conversations search response" resp), st2)).
Proof.
  intros Hlookup Htoken Hloc Hnet st2. subst st2.
  unfold conversations_search_request in *.
  split; [intros Hs|intros Hs Hj];
    unfold get_conversations_with_details; unfold mbind at 1, M_bind;
    rewrite Hlookup, Htoken; cbn [negb];
    unfold mbind at 1, M_bind; rewrite Hloc;
    unfold mbind at 1, M_bind; unfold requests_get at 1, send; rewrite Hnet.
  - by replace (status_code resp =? 200) with false by lia.
  - rewrite Hs, Hj. reflexivity.
Qed.

Lemma failed_conversation_search_stops_witness :
  get_conversations_with_details demo_cfg down (plain_request []) current
  = (Ok (upstream_error "Error searching conversations" (answer 503 None)),
     logged (tick current)
       (conversations_search_request (PStr "A") [("locationId", PStr "L1")])).
Proof.
  destruct (failed_conversation_search_stops demo_cfg down (plain_request []) current
              (PStr "A") (tick current) [("locationId", PStr "L1")]
              (answer 503 None)) as [Hstatus _].
  - vm_compute. reflexivity.
  - reflexivity.
  - vm_compute. reflexivity.
  - reflexivity.
  - apply Hstatus. cbn. lia.
Defined.

Lemma enrich_app env headers pre post :
  forall acc st,
    enrich env headers (pre ++ post) acc st =
      match enrich env headers pre acc st with
      | (Ok acc', st') => enrich env headers post acc' st'
      | (Raise e, st') => (Raise e, st')
      end.
Proof.
  induction pre as [|conv rest0 IH]; intros acc st.
  { cbn [app enrich]. reflexivity. }
  cbn [app enrich]. unfold mbind, M_bind, lift, requests_get, send.
  destruct (py_get conv "id" PNone) as [cid|x]; [|done].
  destruct (truthy cid); cbn [negb]; [|apply IH].
  destruct (network env _ _) as [detail_resp|]; [|done].
  destruct (status_code detail_resp =? 200); [destruct (json detail_resp)|];
    apply IH.
Qed.

(** The batch is not protected against everything: a summary that is not a
    JSON object, or a detail call that fails at transport level, aborts the
    loop with an exception, and the entries collected from the summaries
    before it are lost with it. *)
Theorem enrich_aborts env headers pre conv rest resps acc st :
  Forall is_object pre ->
  answered env headers (length (sent st)) (identified pre) resps ->
  let reached := (sent st ++ map (detail_request headers) (identified pre))%list in
  ((forall d, conv <> PDict d) ->
   enrich env headers (pre ++ conv :: rest) acc st
   = (Raise AttributeError,
      {| session := session st; ticks := ticks st; sent := reached |})) /\
  (is_object conv ->
   truthy (conversation_id conv) = true ->
   network env (length reached) (detail_request headers (conversation_id conv))
     = None ->
   enrich env headers (pre ++ conv :: rest) acc st
   = (Raise ConnectionError,
      {| session := session st; ticks := ticks st;
         sent := (reached ++ [detail_request headers (conversation_id conv)])%list |})).
Proof.
  intros Hpre Hans reached. subst reached.
  rewrite enrich_app, (enrich_run env headers pre resps Hpre acc st Hans).
  split.
  - intros Hconv. cbn [enrich]. unfold mbind at 1, M_bind. unfold lift at 1.
    destruct conv; try done. by destruct (Hconv d).
  - intros [d ->] Hid Hnet. cbn [enrich]. unfold mbind at 1, M_bind.
    unfold lift at 1. cbn [py_get conversation_id] in *. rewrite Hid.
    cbn [negb]. unfold mbind at 1, M_bind. unfold requests_get, send.
    fold (detail_request headers (default PNone (dict_lookup "id" d))).
    cbn [sent session ticks]. by rewrite Hnet.
Qed.

Lemma enrich_aborts_witness :
  enrich (steady 1000 None) api_headers [summary "c1"; summary "c2"]
    [detail "c0"] (with_session [])
  = (Raise ConnectionError,
     {| session := session (with_session []); ticks := ticks (with_session []);
        sent := ((sent (with_session [])
                  ++ map (detail_request api_headers) (identified []))
                 ++ [detail_request api_headers
                       (conversation_id (summary "c1"))])%list |}).
Proof.
  destruct (enrich_aborts (steady 1000 None) api_headers [] (summary "c1")
              [summary "c2"] [] [detail "c0"] (with_session [])) as [_ Hnet].
  - constructor.
  - split; [reflexivity|]. intros i id resp Hi. discriminate Hi.
  - apply Hnet; [by eexists|reflexivity|reflexivity].
Defined.

(** * Sessions that were never authorized *)

(** A proxy request on a session that has no expiry stored, an empty one for
    instance, is not answered 401: the token lookup posts a refresh with
    whatever refresh token the session has (none, for an empty session), and
    when the token endpoint rejects it with a 4xx or 5xx the handler fails
    with that [HTTPError] before any call to the API. *)
Theorem unauthorized_request_attempts_refresh cfg env rq st resp :
  session st !! "token_expires_at" = None ->
  let refresh := refresh_request cfg (stored_value st "refresh_token") in
  network env (length (sent st)) refresh = Some resp ->
  400 <= status_code resp < 600 ->
  get_valid_access_token cfg env st
    = (Raise (HTTPError (status_code resp)), logged st refresh) /\
  search_locations cfg env rq st
    = (Raise (HTTPError (status_code resp)), logged st refresh).
Proof.
  intros Hn refresh Hnet Hst. subst refresh.
  assert (Hlookup : get_valid_access_token cfg env st
            = (Raise (HTTPError (status_code resp)),
               logged st (refresh_request cfg (stored_value st "refresh_token")))).
  { rewrite (get_valid_access_token_undated cfg env st Hn).
    rewrite refresh_access_token_run. cbv zeta. rewrite Hnet.
    by replace ((400 <=? status_code resp) && (status_code resp <? 600))
      with true by lia. }
  split; [exact Hlookup|].
  unfold search_locations. unfold mbind at 1, M_bind. by rewrite Hlookup.
Qed.

Lemma unauthorized_request_attempts_refresh_witness :
  get_valid_access_token demo_cfg rejecting (with_session [])
    = (Raise (HTTPError (status_code (answer 401 None))),
       logged (with_session [])
         (refresh_request demo_cfg (stored_value (with_session []) "refresh_token"))) /\
  search_locations demo_cfg rejecting (plain_request []) (with_session [])
    = (Raise (HTTPError (status_code (answer 401 None))),
       logged (with_session [])
         (refresh_request demo_cfg (stored_value (with_session []) "refresh_token"))).
Proof.
  apply (unauthorized_request_attempts_refresh demo_cfg rejecting
           (plain_request []) (with_session []) (answer 401 None));
    [reflexivity | reflexivity | cbn; lia].
Defined.

(** * What the envelope of an exchange reports *)

(** The envelope a successful code exchange returns reports the lifetime
    left on the stored expiry, not the one the token endpoint declared: it is
    the declared [expires_in] less the 30 second margin and less the time the
    clock moved between storing and answering, and zero when that is
    negative. *)
Theorem exchange_reports_stored_lifetime cfg env rq st reply st' :
  exchanging rq st ->
  callback cfg env rq st = (Ok reply, st') ->
  exists resp d secs,
    network env (length (sent st)) (exchange_request cfg (args_get rq "code"))
      = Some resp /\
    json resp = Some (PDict d) /\
    lifetime env d = Ok secs /\
    reply = envelope st'
              (Z.max (secs - 30 - (clock env (S (ticks st)) - clock env (ticks st))) 0).
Proof.
  intros Hex Hrun. rewrite (callback_exchanging cfg env _ _ Hex) in Hrun.
  cbv zeta in Hrun.
  destruct (network env _ _) as [resp|] eqn:Hnet; [|done].
  destruct (_ && _); [done|].
  destruct (json resp) as [tokens|] eqn:Hj; [|done].
  destruct (store_tokens env _ _ _) as [[[]|x] st0] eqn:Hstore; [|done].
  destruct (store_tokens_inv env _ _ _ _ Hstore)
    as (d & access & secs & loc & company & -> & Ha & Hs & Hl & Hc & ->).
  rewrite build_response_run in Hrun. cbn [session ticks logged] in Hrun.
  rewrite stored_expiry in Hrun. cbn [default from_option id py_sub_int] in Hrun.
  injection Hrun as <- <-.
  exists resp, d, secs. repeat split; try done.
  unfold envelope. do 8 f_equal. lia.
Qed.

Lemma exchange_reports_stored_lifetime_witness :
  exists resp d secs,
    network issuing (length (sent (with_session [])))
      (exchange_request demo_cfg (args_get (plain_request [("code", "abc")]) "code"))
      = Some resp /\
    json resp = Some (PDict d) /\
    lifetime issuing d = Ok secs /\
    envelope (snd (callback demo_cfg issuing (plain_request [("code", "abc")])
                     (with_session []))) 30
    = envelope (snd (callback demo_cfg issuing (plain_request [("code", "abc")])
                       (with_session [])))
        (Z.max (secs - 30 - (clock issuing (S (ticks (with_session [])))
                             - clock issuing (ticks (with_session [])))) 0).
Proof.
  apply (exchange_reports_stored_lifetime demo_cfg issuing
           (plain_request [("code", "abc")]) (with_session [])).
  - repeat split; reflexivity.
  - vm_compute. reflexivity.
Defined.

(** * The body of a contact search *)

(** [search_contacts] and the bodies it is not written for: a body that is
    not JSON raises [BadRequest] once the token has been looked up; a JSON
    body that is empty or null counts as an empty object, so the search goes
    upstream with the session's tenant alone; a non-empty body that is not an
    object raises [AttributeError]. *)
Theorem search_contacts_odd_bodies cfg env rq st token st1 :
  get_valid_access_token cfg env st = (Ok token, st1) ->
  truthy token = true ->
  (body rq = None -> search_contacts cfg env rq st = (Raise BadRequest, st1)) /\
  (forall parsed,
     body rq = Some parsed -> truthy parsed = false ->
     truthy (stored_value st1 "location_id") = true ->
     sent (snd (search_contacts cfg env rq st))
     = (sent st1 ++ [contacts_request token
                       (PDict [("locationId", stored_value st1 "location_id")])])%list) /\
  (forall parsed,
     body rq = Some parsed -> truthy parsed = true -> (forall d, parsed <> PDict d) ->
     search_contacts cfg env rq st = (Raise AttributeError, st1)).
Proof.
  intros Hlookup Htoken. split; [|split].
  - intros Hb. unfold search_contacts. unfold mbind at 1, M_bind.
    rewrite Hlookup, Htoken. cbn [negb]. unfold mbind at 1, M_bind.
    unfold get_json. by rewrite Hb.
  - intros parsed Hb Hf Hk. unfold search_contacts. unfold mbind at 1, M_bind.
    rewrite Hlookup, Htoken. cbn [negb].
    unfold get_json. rewrite Hb.
    unfold mbind, M_bind, mret, M_ret, lift, session_get, requests_post_json, send.
    cbv beta iota zeta. rewrite Hf. cbn [py_get dict_lookup default from_option truthy negb].
    cbv beta iota. fold (stored_value st1 "location_id"). rewrite Hk.
    cbn [negb py_setitem dict_store]. cbv beta iota.
    fold (contacts_request token (PDict [("locationId", stored_value st1 "location_id")])).
    by destruct (network env _ _).
  - intros parsed Hb Ht Hno. unfold search_contacts. unfold mbind at 1, M_bind.
    rewrite Hlookup, Htoken. cbn [negb].
    unfold get_json. rewrite Hb.
    unfold mbind, M_bind, mret, M_ret, lift. cbv beta iota zeta. rewrite Ht.
    destruct parsed; cbn [py_get]; try done. by destruct (Hno d).
Qed.

Lemma search_contacts_odd_bodies_witness :
  sent (snd (search_contacts demo_cfg catalogue
               {| args := []; in_headers := []; body := Some PNone |} current))
  = (sent (tick current)
     ++ [contacts_request (PStr "A")
           (PDict [("locationId", stored_value (tick current) "location_id")])])%list.
Proof.
  assert (Hlookup : get_valid_access_token demo_cfg catalogue current
                    = (Ok (PStr "A"), tick current)) by (vm_compute; reflexivity).
  destruct (search_contacts_odd_bodies demo_cfg catalogue
              {| args := []; in_headers := []; body := Some PNone |} current
              (PStr "A") (tick current) Hlookup eq_refl) as (_ & Hempty & _).
  apply (Hempty PNone); reflexivity.
Defined.
